(** * Data Fabric integration layer: capability registry, intent
      decomposition, feedback-signal registry and emitter.

    A shallow embedding of [src/integration/mcop/*.py] and
    [src/integration/observability/*.py].  Python objects become records
    threaded explicitly through every method; external collaborators
    (asset registry, observability spine, intent engine, MCOP scheduler)
    are arbitrary behaviours over the history of calls made on them;
    [await] is sequential. *)

From Stdlib Require Import String Ascii List ZArith Bool Lia.
From stdpp Require Import base strings gmap list.
Import ListNotations.
Local Open Scope string_scope.
Local Open Scope list_scope.

(** ** Python runtime values *)

Module Py.

(** An exception caught by [except Exception]: its class name and [str(e)]. *)
Record PyException := { exc_class : string; exc_str : string }.

(** What an awaited collaborator call, or a fallible expression, does. *)
Inductive Completion (A : Type) :=
| Returns (a : A)
| Raises (e : PyException).
Arguments Returns {A} a.
Arguments Raises {A} e.

(** [isinstance(e, classes)], on class names. *)
Definition is_instance (e : PyException) (classes : list string) : bool :=
  existsb (String.eqb (exc_class e)) classes.

(** A [uuid.UUID], identified with its canonical text: [str(u)] is [u]. *)
Definition UUID := string.

(** A [datetime], as microseconds since the epoch. *)
Definition datetime := Z.

(** The sources of [uuid4()] and [datetime.now(timezone.utc)]: the value of
    the n-th draw, and how many draws were made. *)
Record Runtime := {
  uuid_stream : nat -> UUID;
  time_stream : nat -> datetime;
  uuid_draws : nat;
  time_reads : nat;
}.

Definition uuid4 (rt : Runtime) : UUID * Runtime :=
  (uuid_stream rt (uuid_draws rt),
   {| uuid_stream := uuid_stream rt; time_stream := time_stream rt;
      uuid_draws := S (uuid_draws rt); time_reads := time_reads rt |}).

Definition utc_now (rt : Runtime) : datetime * Runtime :=
  (time_stream rt (time_reads rt),
   {| uuid_stream := uuid_stream rt; time_stream := time_stream rt;
      uuid_draws := uuid_draws rt; time_reads := S (time_reads rt) |}).

End Py.
Export Py.

(** ** Insertion-ordered dictionaries with string keys

    A Python [dict] keeps its keys in insertion order, and that order is the
    order of the external calls made while iterating, so a dictionary is an
    association list: assignment replaces in place or appends, [del] removes
    the entry or raises [KeyError]. *)

Module PyDict.
Section Dict.
Context {V : Type}.

Fixpoint get (k : string) (d : list (string * V)) : option V :=
  match d with
  | [] => None
  | (k', v) :: d' => if String.eqb k k' then Some v else get k d'
  end.

(** [d[k] = v] *)
Fixpoint set (k : string) (v : V) (d : list (string * V)) : list (string * V) :=
  match d with
  | [] => [(k, v)]
  | (k', v') :: d' =>
      if String.eqb k k' then (k, v) :: d' else (k', v') :: set k v d'
  end.

(** [k in d] *)
Definition contains (k : string) (d : list (string * V)) : bool :=
  match get k d with Some _ => true | None => false end.

Fixpoint remove (k : string) (d : list (string * V)) : list (string * V) :=
  match d with
  | [] => []
  | (k', v') :: d' =>
      if String.eqb k k' then d' else (k', v') :: remove k d'
  end.

(** [del d[k]]: [None] stands for [KeyError]. *)
Definition del (k : string) (d : list (string * V)) : option (list (string * V)) :=
  if contains k d then Some (remove k d) else None.

Definition keys (d : list (string * V)) : list string := map fst d.
Definition values (d : list (string * V)) : list V := map snd d.
Definition items (d : list (string * V)) : list (string * V) := d.
Definition len (d : list (string * V)) : nat := length d.

(** [{**base, **extra}] / [base.update(extra)] *)
Definition update (base extra : list (string * V)) : list (string * V) :=
  fold_left (fun d kv => set (fst kv) (snd kv) d) extra base.

(** Keys of a dictionary are pairwise distinct. *)
Definition wf (d : list (string * V)) : Prop := NoDup (keys d).

End Dict.
End PyDict.

Abbreviation dict V := (list (string * V)).

(** A value of type [Any] as JSON produces it (numbers are integers here). *)
Unset Elimination Schemes.
Inductive PyVal :=
| VNone
| VBool (b : bool)
| VInt (z : Z)
| VStr (s : string)
| VList (l : list PyVal)
| VDict (d : list (string * PyVal)).
Set Elimination Schemes.

(** [v == s] for a string literal [s]: only a string equals a string. *)
Definition py_eq_str (v : PyVal) (s : string) : bool :=
  match v with
  | VStr s' => String.eqb s' s
  | _ => false
  end.

(** [needle in hay] on two strings: substring test. *)
Fixpoint is_substring (needle hay : string) : bool :=
  String.prefix needle hay ||
  match hay with
  | EmptyString => false
  | String _ hay' => is_substring needle hay'
  end.

(** [s in v], for a string [s] and a container of type [Any]: element of a
    list, key of a dict, substring of a string; anything else is not
    iterable and raises [TypeError]. *)
Definition py_str_in (s : string) (v : PyVal) : Completion bool :=
  match v with
  | VList l => Returns (existsb (fun x => py_eq_str x s) l)
  | VDict d => Returns (PyDict.contains s d)
  | VStr hay => Returns (is_substring s hay)
  | VNone =>
      Raises {| exc_class := "TypeError";
                exc_str := "argument of type 'NoneType' is not iterable" |}
  | VBool _ =>
      Raises {| exc_class := "TypeError";
                exc_str := "argument of type 'bool' is not iterable" |}
  | VInt _ =>
      Raises {| exc_class := "TypeError";
                exc_str := "argument of type 'int' is not iterable" |}
  end.

(** A directory entry matched by [glob("*.json")], as [json.load] sees it:
    malformed text raises [json.JSONDecodeError]; otherwise the file holds a
    JSON object, whose members the loader reads with [.get] and a default.
    The directory is listed in [sorted] order.

    The entries are the files a load gets through: a file that [json.load]
    reads as something other than an object, an object whose [metadata],
    [capability] or [emission_trigger] is not an object, or a file that is
    not text makes the loader raise an exception its [except] clause does
    not catch, and the whole load aborts there.  Such files are not entries
    of this type, so whatever is stated below of a load is stated of a load
    that completes. *)
Inductive JsonFile (Doc : Type) :=
| MalformedJson (msg : string)
| JsonObject (doc : Doc).
Arguments MalformedJson {Doc} msg.
Arguments JsonObject {Doc} doc.

(** [d.get(k, default)] on an optional member. *)
Definition get_or {A : Type} (member : option A) (default : A) : A :=
  match member with
  | Some a => a
  | None => default
  end.

(** ** [observability/signal_registry.py] *)

Module signal_registry.

Record SignalDefinition := {
  name : string;
  version : string;
  signal_type : string;
  description : string;
  emission_trigger : dict PyVal;
  schema : dict PyVal;
  intended_consumers : list (dict string);
  domain : string;
}.

Record SignalRegistry := {
  metrics : dict SignalDefinition;
  outcomes : dict SignalDefinition;
  advisors : dict SignalDefinition;
}.

(** [SignalRegistry()]: the three [default_factory=dict] fields. *)
Definition SignalRegistry_new : SignalRegistry :=
  {| metrics := []; outcomes := []; advisors := [] |}.

Definition add (signal : SignalDefinition) (self : SignalRegistry) : SignalRegistry :=
  if String.eqb (signal_type signal) "metric" then
    {| metrics := PyDict.set (name signal) signal (metrics self);
       outcomes := outcomes self; advisors := advisors self |}
  else if String.eqb (signal_type signal) "outcome" then
    {| metrics := metrics self;
       outcomes := PyDict.set (name signal) signal (outcomes self);
       advisors := advisors self |}
  else if String.eqb (signal_type signal) "advisor" then
    {| metrics := metrics self; outcomes := outcomes self;
       advisors := PyDict.set (name signal) signal (advisors self) |}
  else self.

(** [a.get(n) or b.get(n) or c.get(n)]: a [SignalDefinition] is always
    truthy, so [or] picks the first bucket that holds the name. *)
Definition get (n : string) (self : SignalRegistry) : option SignalDefinition :=
  match PyDict.get n (metrics self) with
  | Some s => Some s
  | None =>
      match PyDict.get n (outcomes self) with
      | Some s => Some s
      | None => PyDict.get n (advisors self)
      end
  end.

Definition get_all (self : SignalRegistry) : list SignalDefinition :=
  PyDict.values (metrics self) ++ PyDict.values (outcomes self)
    ++ PyDict.values (advisors self).

Definition get_by_type (ty : string) (self : SignalRegistry) : list SignalDefinition :=
  if String.eqb ty "metric" then PyDict.values (metrics self)
  else if String.eqb ty "outcome" then PyDict.values (outcomes self)
  else if String.eqb ty "advisor" then PyDict.values (advisors self)
  else [].

(** The members of a signal file that [_load_signal_from_file] reads. *)
Record SignalMetadata := {
  md_name : option string;
  md_version : option string;
  md_domain : option string;
}.

Record SignalDocument := {
  doc_metadata : option SignalMetadata;
  doc_signal_type : option string;
  doc_description : option string;
  doc_emission_trigger : option (dict PyVal);
  doc_schema : option (dict PyVal);
  doc_intended_consumers : option (list (dict string));
}.

Definition DOMAIN : string := "data-fabric".

(** [FeedbackSignalRegistry]: [feedback_signals] is the content of
    [base_path / "feedback_signals"], [None] when the directory does not
    exist; [stdout] collects what [print] writes. *)
Record FeedbackSignalRegistry := {
  feedback_signals : option (list (string * JsonFile SignalDocument));
  _registry : SignalRegistry;
  _loaded : bool;
  stdout : list string;
}.

Definition FeedbackSignalRegistry_new
    (dir : option (list (string * JsonFile SignalDocument))) : FeedbackSignalRegistry :=
  {| feedback_signals := dir; _registry := SignalRegistry_new;
     _loaded := false; stdout := [] |}.

Definition _load_signal_from_file (f : JsonFile SignalDocument) : Completion SignalDefinition :=
  match f with
  | MalformedJson msg =>
      Raises {| exc_class := "JSONDecodeError"; exc_str := msg |}
  | JsonObject data =>
      let metadata :=
        get_or (doc_metadata data)
          {| md_name := None; md_version := None; md_domain := None |} in
      Returns
        {| name := get_or (md_name metadata) "";
           version := get_or (md_version metadata) "1.0.0";
           signal_type := get_or (doc_signal_type data) "metric";
           description := get_or (doc_description data) "";
           emission_trigger := get_or (doc_emission_trigger data) [];
           schema := get_or (doc_schema data) [];
           intended_consumers := get_or (doc_intended_consumers data) [];
           domain := get_or (md_domain metadata) DOMAIN |}
  end.

(** The body of the [for signal_file in sorted(...)] loop of [load]; every
    exception [_load_signal_from_file] raises here is a [JSONDecodeError],
    which the [except] clause turns into a printed warning. *)
Fixpoint load_files (files : list (string * JsonFile SignalDocument))
    (reg : SignalRegistry) (out : list string) : SignalRegistry * list string :=
  match files with
  | [] => (reg, out)
  | (signal_file, content) :: rest =>
      match _load_signal_from_file content with
      | Returns signal => load_files rest (add signal reg) out
      | Raises e =>
          load_files rest reg
            (out ++ ["Warning: Failed to load signal " +:+ signal_file
                       +:+ ": " +:+ exc_str e])
      end
  end.

Definition load (self : FeedbackSignalRegistry) : SignalRegistry * FeedbackSignalRegistry :=
  match feedback_signals self with
  | None => (_registry self, self)
  | Some files =>
      let '(reg, out) := load_files files (_registry self) (stdout self) in
      (reg, {| feedback_signals := feedback_signals self; _registry := reg;
               _loaded := true; stdout := out |})
  end.

Definition get_registry (self : FeedbackSignalRegistry) : SignalRegistry * FeedbackSignalRegistry :=
  if negb (_loaded self) then
    let '(_, self') := load self in (_registry self', self')
  else (_registry self, self).

Definition get_signal (n : string) (self : FeedbackSignalRegistry)
    : option SignalDefinition * FeedbackSignalRegistry :=
  let '(registry, self') := get_registry self in (get n registry, self').

(** The loop of [get_signals_for_execution_unit]: [eu_name in trigger_units]
    raises when [trigger_units] is not iterable. *)
Fixpoint matching_signals (eu_name : string) (signals : list SignalDefinition)
    (matching : list SignalDefinition) : Completion (list SignalDefinition) :=
  match signals with
  | [] => Returns matching
  | signal :: rest =>
      let trigger_units :=
        get_or (PyDict.get "execution_units" (emission_trigger signal)) (VList []) in
      match py_str_in eu_name trigger_units with
      | Raises e => Raises e
      | Returns true => matching_signals eu_name rest (matching ++ [signal])
      | Returns false => matching_signals eu_name rest matching
      end
  end.

Definition get_signals_for_execution_unit (eu_name : string) (self : FeedbackSignalRegistry)
    : Completion (list SignalDefinition) * FeedbackSignalRegistry :=
  let '(registry, self') := get_registry self in
  (matching_signals eu_name (get_all registry) [], self').

Definition get_metrics (self : FeedbackSignalRegistry) :=
  let '(registry, self') := get_registry self in (get_by_type "metric" registry, self').

Definition get_outcomes (self : FeedbackSignalRegistry) :=
  let '(registry, self') := get_registry self in (get_by_type "outcome" registry, self').

Definition get_advisors (self : FeedbackSignalRegistry) :=
  let '(registry, self') := get_registry self in (get_by_type "advisor" registry, self').

Definition get_signal_count (self : FeedbackSignalRegistry) : dict Z * FeedbackSignalRegistry :=
  let '(registry, self') := get_registry self in
  ([("metrics", Z.of_nat (PyDict.len (metrics registry)));
    ("outcomes", Z.of_nat (PyDict.len (outcomes registry)));
    ("advisors", Z.of_nat (PyDict.len (advisors registry)));
    ("total", Z.of_nat (length (get_all registry)))], self').

End signal_registry.

(** ** [observability/signal_emitter.py] *)

Module signal_emitter.
Import signal_registry.

(** One call on the [ObservabilitySpine], with its keyword arguments. *)
Inductive SpineCall :=
| spine_emit_metric (metric_name : string) (value : dict PyVal)
    (tenant_context : dict string) (timestamp : datetime)
| spine_emit_outcome (outcome_name : string) (value : dict PyVal)
    (tenant_context : dict string) (timestamp : datetime)
| spine_emit_advisor (advisor_name : string) (value : dict PyVal)
    (tenant_context : dict string) (intended_consumer : string)
    (timestamp : datetime).

(** The external sink: what it answers to a call given the calls it has
    received so far, and those calls. *)
Record ObservabilitySpine := {
  spine_behaviour : list SpineCall -> SpineCall -> Completion bool;
  spine_calls : list SpineCall;
}.

Definition await_spine (c : SpineCall) (spine : ObservabilitySpine)
    : Completion bool * ObservabilitySpine :=
  (spine_behaviour spine (spine_calls spine) c,
   {| spine_behaviour := spine_behaviour spine;
      spine_calls := spine_calls spine ++ [c] |}).

Record EmissionResult := {
  signal_name : string;
  signal_type : string;
  success : bool;
  emission_id : UUID;
  timestamp : datetime;
  error : option string;
}.

Record FeedbackSignalEmitter := {
  _spine : option ObservabilitySpine;
  _signal_registry : FeedbackSignalRegistry;
  _emissions : list EmissionResult;
  runtime : Runtime;
}.

Definition DOMAIN : string := "data-fabric".

(** [__init__], given the registry ([signal_registry or
    FeedbackSignalRegistry()] with the default already resolved). *)
Definition FeedbackSignalEmitter_new (observability_spine : option ObservabilitySpine)
    (registry : FeedbackSignalRegistry) (rt : Runtime) : FeedbackSignalEmitter :=
  {| _spine := observability_spine; _signal_registry := registry;
     _emissions := []; runtime := rt |}.

(** The common body of [emit_metric], [emit_outcome] and [emit_advisor],
    which differ only in the type tag [kind] (also the word in the error
    text) and in the spine method awaited, [call]. *)
Definition emit_signal (kind : string) (call : dict PyVal -> datetime -> SpineCall)
    (signal_name : string) (intent_id : UUID) (values : dict PyVal)
    (self : FeedbackSignalEmitter) : EmissionResult * FeedbackSignalEmitter :=
  let '(signal_def, registry) := get_signal signal_name (_signal_registry self) in
  let unknown :=
    match signal_def with
    | None => true
    | Some sd => negb (String.eqb (signal_registry.signal_type sd) kind)
    end in
  if unknown then
    let '(eid, rt) := uuid4 (runtime self) in
    let '(now, rt) := utc_now rt in
    ({| signal_name := signal_name; signal_type := kind; success := false;
        emission_id := eid; timestamp := now;
        error := Some ("Unknown " +:+ kind +:+ ": " +:+ signal_name) |},
     {| _spine := _spine self; _signal_registry := registry;
        _emissions := _emissions self; runtime := rt |})
  else
    let '(emission_id, rt) := uuid4 (runtime self) in
    let '(now, rt) := utc_now rt in
    let payload :=
      PyDict.update [("intent_id", VStr intent_id); ("domain", VStr DOMAIN)] values in
    match _spine self with
    | Some spine =>
        match await_spine (call payload now) spine with
        | (Raises e, spine') =>
            let result :=
              {| signal_name := signal_name; signal_type := kind; success := false;
                 emission_id := emission_id; timestamp := now;
                 error := Some (exc_str e) |} in
            (result,
             {| _spine := Some spine'; _signal_registry := registry;
                _emissions := _emissions self ++ [result]; runtime := rt |})
        | (Returns success, spine') =>
            let result :=
              {| signal_name := signal_name; signal_type := kind; success := success;
                 emission_id := emission_id; timestamp := now; error := None |} in
            (result,
             {| _spine := Some spine'; _signal_registry := registry;
                _emissions := _emissions self ++ [result]; runtime := rt |})
        end
    | None =>
        let result :=
          {| signal_name := signal_name; signal_type := kind; success := true;
             emission_id := emission_id; timestamp := now; error := None |} in
        (result,
         {| _spine := None; _signal_registry := registry;
            _emissions := _emissions self ++ [result]; runtime := rt |})
    end.

Definition emit_metric (metric_name : string) (intent_id : UUID)
    (tenant_context : dict string) (values : dict PyVal)
    (self : FeedbackSignalEmitter) : EmissionResult * FeedbackSignalEmitter :=
  emit_signal "metric"
    (fun payload now => spine_emit_metric metric_name payload tenant_context now)
    metric_name intent_id values self.

Definition emit_outcome (outcome_name : string) (intent_id : UUID)
    (tenant_context : dict string) (values : dict PyVal)
    (self : FeedbackSignalEmitter) : EmissionResult * FeedbackSignalEmitter :=
  emit_signal "outcome"
    (fun payload now => spine_emit_outcome outcome_name payload tenant_context now)
    outcome_name intent_id values self.

Definition emit_advisor (advisor_name : string) (intent_id : UUID)
    (tenant_context : dict string) (values : dict PyVal) (intended_consumer : string)
    (self : FeedbackSignalEmitter) : EmissionResult * FeedbackSignalEmitter :=
  emit_signal "advisor"
    (fun payload now =>
       spine_emit_advisor advisor_name payload tenant_context intended_consumer now)
    advisor_name intent_id values self.

(** [trigger.get("condition", "always")] *)
Definition condition_of (signal_def : SignalDefinition) : PyVal :=
  get_or (PyDict.get "condition" (emission_trigger signal_def)) (VStr "always").

(** [consumers[0]["consumer"] if consumers else "unknown"] *)
Definition first_consumer (consumers : list (dict string)) : Completion string :=
  match consumers with
  | [] => Returns "unknown"
  | c :: _ =>
      match PyDict.get "consumer" c with
      | Some consumer => Returns consumer
      | None => Raises {| exc_class := "KeyError"; exc_str := "'consumer'" |}
      end
  end.

(** The [for signal_def in signals] loop of [emit_for_execution_unit]. *)
Fixpoint emit_each (signals : list SignalDefinition) (intent_id : UUID)
    (tenant_context : dict string) (execution_result : dict PyVal) (success : bool)
    (results : list EmissionResult) (self : FeedbackSignalEmitter)
    : Completion (list EmissionResult) * FeedbackSignalEmitter :=
  match signals with
  | [] => (Returns results, self)
  | signal_def :: rest =>
      let continue := emit_each rest intent_id tenant_context execution_result success in
      let condition := condition_of signal_def in
      if py_eq_str condition "on_success" && negb success then
        continue results self
      else if py_eq_str condition "on_failure" && success then
        continue results self
      else if String.eqb (signal_registry.signal_type signal_def) "metric" then
        let '(result, self') :=
          emit_metric (name signal_def) intent_id tenant_context execution_result self in
        continue (results ++ [result]) self'
      else if String.eqb (signal_registry.signal_type signal_def) "outcome" then
        let '(result, self') :=
          emit_outcome (name signal_def) intent_id tenant_context execution_result self in
        continue (results ++ [result]) self'
      else if String.eqb (signal_registry.signal_type signal_def) "advisor" then
        match first_consumer (intended_consumers signal_def) with
        | Raises e => (Raises e, self)
        | Returns consumer =>
            let '(result, self') :=
              emit_advisor (name signal_def) intent_id tenant_context
                execution_result consumer self in
            continue (results ++ [result]) self'
        end
      else continue results self
  end.

Definition emit_for_execution_unit (execution_unit_name : string) (intent_id : UUID)
    (tenant_context : dict string) (execution_result : dict PyVal) (success : bool)
    (self : FeedbackSignalEmitter)
    : Completion (list EmissionResult) * FeedbackSignalEmitter :=
  let '(signals, registry) :=
    get_signals_for_execution_unit execution_unit_name (_signal_registry self) in
  let self' :=
    {| _spine := _spine self; _signal_registry := registry;
       _emissions := _emissions self; runtime := runtime self |} in
  match signals with
  | Raises e => (Raises e, self')
  | Returns signals =>
      emit_each signals intent_id tenant_context execution_result success [] self'
  end.

Definition get_emissions (self : FeedbackSignalEmitter) : list EmissionResult :=
  _emissions self.

Definition count_if (p : EmissionResult -> bool) (l : list EmissionResult) : Z :=
  Z.of_nat (length (List.filter p l)).

Definition get_emission_count (self : FeedbackSignalEmitter) : dict Z :=
  [("total", Z.of_nat (length (_emissions self)));
   ("successful", count_if success (_emissions self));
   ("failed", count_if (fun e => negb (success e)) (_emissions self));
   ("metrics", count_if (fun e => String.eqb (signal_type e) "metric") (_emissions self));
   ("outcomes", count_if (fun e => String.eqb (signal_type e) "outcome") (_emissions self));
   ("advisors", count_if (fun e => String.eqb (signal_type e) "advisor") (_emissions self))].

Definition clear_emissions (self : FeedbackSignalEmitter) : FeedbackSignalEmitter :=
  {| _spine := _spine self; _signal_registry := _signal_registry self;
     _emissions := []; runtime := runtime self |}.

(** How many calls the external sink has received. *)
Definition sink_calls (self : FeedbackSignalEmitter) : list SpineCall :=
  match _spine self with
  | Some spine => spine_calls spine
  | None => []
  end.

End signal_emitter.

(** ** [mcop/registry_loader.py] *)

Module registry_loader.

Record RegistryCard := {
  name : string;
  version : string;
  domain : string;
  capability_type : string;
  capability_tags : list string;
  description : string;
  input_contract : dict PyVal;
  output_contract : dict PyVal;
  consumer_intents : list string;
  failure_modes : list string;
  adr_reference : string;
}.

(** The members of a card file that [_load_card_from_file] reads. *)
Record CardMetadata := {
  md_name : option string;
  md_version : option string;
  md_domain : option string;
  md_adr_reference : option string;
}.

Record CardCapability := {
  cap_type : option string;
  cap_tags : option (list string);
  cap_description : option string;
}.

Record CardDocument := {
  doc_metadata : option CardMetadata;
  doc_capability : option CardCapability;
  doc_input_contract : option (dict PyVal);
  doc_output_contract : option (dict PyVal);
  doc_consumer_intents : option (list string);
  doc_failure_modes : option (list string);
}.

(** The keyword arguments of [register_capability]; [metadata] is the dict
    with keys [failure_modes], [adr_reference] and [registered_at]. *)
Record RegisterArgs := {
  arg_name : string;
  arg_version : string;
  arg_domain : string;
  arg_capability_type : string;
  arg_tags : list string;
  arg_description : string;
  arg_input_contract : dict PyVal;
  arg_output_contract : dict PyVal;
  arg_consumer_intents : list string;
  arg_metadata_failure_modes : list string;
  arg_metadata_adr_reference : string;
  arg_metadata_registered_at : datetime;
}.

Inductive RegistryCall :=
| call_register (args : RegisterArgs)
| call_unregister (card_id : UUID).

(** The external asset registry: its answers given the calls received so
    far, and those calls. *)
Record AssetRegistryClient := {
  register_capability : list RegistryCall -> RegisterArgs -> Completion UUID;
  unregister_capability : list RegistryCall -> UUID -> Completion bool;
  registry_calls : list RegistryCall;
}.

Definition await_register (args : RegisterArgs) (client : AssetRegistryClient)
    : Completion UUID * AssetRegistryClient :=
  (register_capability client (registry_calls client) args,
   {| register_capability := register_capability client;
      unregister_capability := unregister_capability client;
      registry_calls := registry_calls client ++ [call_register args] |}).

Definition await_unregister (card_id : UUID) (client : AssetRegistryClient)
    : Completion bool * AssetRegistryClient :=
  (unregister_capability client (registry_calls client) card_id,
   {| register_capability := register_capability client;
      unregister_capability := unregister_capability client;
      registry_calls := registry_calls client ++ [call_unregister card_id] |}).

Definition DOMAIN : string := "data-fabric".

(** [RegistryCardLoader]: [registry_cards] is the content of
    [base_path / "registry_cards"], [None] when the directory does not
    exist; [stdout] collects what [print] writes. *)
Record RegistryCardLoader := {
  _registry_client : AssetRegistryClient;
  registry_cards : option (list (string * JsonFile CardDocument));
  _registered_cards : dict UUID;
  stdout : list string;
  runtime : Runtime;
}.

Definition RegistryCardLoader_new (registry_client : AssetRegistryClient)
    (dir : option (list (string * JsonFile CardDocument))) (rt : Runtime)
    : RegistryCardLoader :=
  {| _registry_client := registry_client; registry_cards := dir;
     _registered_cards := []; stdout := []; runtime := rt |}.

Definition _load_card_from_file (f : JsonFile CardDocument) : Completion RegistryCard :=
  match f with
  | MalformedJson msg =>
      Raises {| exc_class := "JSONDecodeError"; exc_str := msg |}
  | JsonObject data =>
      let metadata :=
        get_or (doc_metadata data)
          {| md_name := None; md_version := None; md_domain := None;
             md_adr_reference := None |} in
      let capability :=
        get_or (doc_capability data)
          {| cap_type := None; cap_tags := None; cap_description := None |} in
      Returns
        {| name := get_or (md_name metadata) "";
           version := get_or (md_version metadata) "1.0.0";
           domain := get_or (md_domain metadata) DOMAIN;
           capability_type := get_or (cap_type capability) "";
           capability_tags := get_or (cap_tags capability) [];
           description := get_or (cap_description capability) "";
           input_contract := get_or (doc_input_contract data) [];
           output_contract := get_or (doc_output_contract data) [];
           consumer_intents := get_or (doc_consumer_intents data) [];
           failure_modes := get_or (doc_failure_modes data) [];
           adr_reference := get_or (md_adr_reference metadata) "" |}
  end.

(** The [for card_file in sorted(...)] loop of [discover_cards]; every
    exception [_load_card_from_file] raises here is a [JSONDecodeError],
    which the [except] clause turns into a printed warning. *)
Fixpoint discover_files (files : list (string * JsonFile CardDocument))
    (cards : list RegistryCard) (out : list string)
    : list RegistryCard * list string :=
  match files with
  | [] => (cards, out)
  | (card_file, content) :: rest =>
      match _load_card_from_file content with
      | Returns card => discover_files rest (cards ++ [card]) out
      | Raises e =>
          discover_files rest cards
            (out ++ ["Warning: Failed to load card " +:+ card_file
                       +:+ ": " +:+ exc_str e])
      end
  end.

Definition with_stdout (out : list string) (self : RegistryCardLoader) : RegistryCardLoader :=
  {| _registry_client := _registry_client self; registry_cards := registry_cards self;
     _registered_cards := _registered_cards self; stdout := out;
     runtime := runtime self |}.

Definition discover_cards (self : RegistryCardLoader) : list RegistryCard * RegistryCardLoader :=
  match registry_cards self with
  | None => ([], self)
  | Some files =>
      let '(cards, out) := discover_files files [] (stdout self) in
      (cards, with_stdout out self)
  end.

(** The [for card in cards] loop of [load_all]. *)
Fixpoint load_each (cards : list RegistryCard) (results : dict UUID)
    (self : RegistryCardLoader) : dict UUID * RegistryCardLoader :=
  match cards with
  | [] => (results, self)
  | card :: rest =>
      let '(now, rt) := utc_now (runtime self) in
      let args :=
        {| arg_name := name card; arg_version := version card;
           arg_domain := domain card; arg_capability_type := capability_type card;
           arg_tags := capability_tags card; arg_description := description card;
           arg_input_contract := input_contract card;
           arg_output_contract := output_contract card;
           arg_consumer_intents := consumer_intents card;
           arg_metadata_failure_modes := failure_modes card;
           arg_metadata_adr_reference := adr_reference card;
           arg_metadata_registered_at := now |} in
      match await_register args (_registry_client self) with
      | (Returns card_id, client) =>
          load_each rest (PyDict.set (name card) card_id results)
            {| _registry_client := client; registry_cards := registry_cards self;
               _registered_cards :=
                 PyDict.set (name card) card_id (_registered_cards self);
               stdout := stdout self; runtime := rt |}
      | (Raises e, client) =>
          load_each rest results
            {| _registry_client := client; registry_cards := registry_cards self;
               _registered_cards := _registered_cards self;
               stdout :=
                 stdout self ++ ["Warning: Failed to register card " +:+ name card
                                   +:+ ": " +:+ exc_str e];
               runtime := rt |}
      end
  end.

Definition load_all (self : RegistryCardLoader) : dict UUID * RegistryCardLoader :=
  let '(cards, self') := discover_cards self in
  load_each cards [] self'.

(** The loop of [unload_all] over the snapshot
    [list(self._registered_cards.items())]. *)
Fixpoint unload_each (snapshot : list (string * UUID)) (results : dict bool)
    (self : RegistryCardLoader) : dict bool * RegistryCardLoader :=
  match snapshot with
  | [] => (results, self)
  | (card_name, card_id) :: rest =>
      match await_unregister card_id (_registry_client self) with
      | (Returns success, client) =>
          let results' := PyDict.set card_name success results in
          if success then
            match PyDict.del card_name (_registered_cards self) with
            | Some remaining =>
                unload_each rest results'
                  {| _registry_client := client;
                     registry_cards := registry_cards self;
                     _registered_cards := remaining;
                     stdout := stdout self; runtime := runtime self |}
            | None =>
                (* [del] raised [KeyError], caught by [except Exception] *)
                unload_each rest (PyDict.set card_name false results')
                  {| _registry_client := client;
                     registry_cards := registry_cards self;
                     _registered_cards := _registered_cards self;
                     stdout :=
                       stdout self ++ ["Warning: Failed to unregister card "
                                         +:+ card_name +:+ ": '" +:+ card_name +:+ "'"];
                     runtime := runtime self |}
            end
          else
            unload_each rest results'
              {| _registry_client := client; registry_cards := registry_cards self;
                 _registered_cards := _registered_cards self;
                 stdout := stdout self; runtime := runtime self |}
      | (Raises e, client) =>
          unload_each rest (PyDict.set card_name false results)
            {| _registry_client := client; registry_cards := registry_cards self;
               _registered_cards := _registered_cards self;
               stdout :=
                 stdout self ++ ["Warning: Failed to unregister card " +:+ card_name
                                   +:+ ": " +:+ exc_str e];
               runtime := runtime self |}
      end
  end.

Definition unload_all (self : RegistryCardLoader) : dict bool * RegistryCardLoader :=
  unload_each (PyDict.items (_registered_cards self)) [] self.

Definition get_registered_cards (self : RegistryCardLoader) : dict UUID :=
  _registered_cards self.

Definition get_card_count (self : RegistryCardLoader) : nat :=
  PyDict.len (_registered_cards self).

End registry_loader.

(** ** [mcop/intent_handler.py] *)

Module intent_handler.

Record ExecutionUnitRef := {
  name : string;
  capability_type : string;
  input_mapping : dict string;
}.

Definition INTENT_TO_EXECUTION_UNITS : dict (list ExecutionUnitRef) :=
  [("RegisterDataAsset",
    [{| name := "DataAssetRegistrar"; capability_type := "data-registration";
        input_mapping := [("asset_declaration", "asset_declaration")] |}]);
   ("IngestData",
    [{| name := "DataExtractor"; capability_type := "data-extraction";
        input_mapping :=
          [("source_connection_ref", "extraction_input.source_connection_ref");
           ("source_query_or_path", "extraction_input.source_query_or_path")] |};
     {| name := "DataWriter"; capability_type := "data-writing";
        input_mapping :=
          [("staging_ref", "write_input.staging_ref");
           ("target_dataset_ref", "write_input.target_dataset_ref")] |};
     {| name := "LineageEdgeWriter"; capability_type := "lineage-recording";
        input_mapping :=
          [("source_asset_ref", "edge_input.source_asset_ref");
           ("target_asset_ref", "edge_input.target_asset_ref")] |}]);
   ("TransformData",
    [{| name := "TransformExecutor"; capability_type := "data-transformation";
        input_mapping :=
          [("input_data_ref", "transform_input.input_data_ref");
           ("transformation_definition", "transform_input.transformation_definition")] |};
     {| name := "DataWriter"; capability_type := "data-writing";
        input_mapping :=
          [("staging_ref", "write_input.staging_ref");
           ("target_dataset_ref", "write_input.target_dataset_ref")] |};
     {| name := "LineageEdgeWriter"; capability_type := "lineage-recording";
        input_mapping :=
          [("source_asset_ref", "edge_input.source_asset_ref");
           ("target_asset_ref", "edge_input.target_asset_ref")] |}]);
   ("MaterializeFeatures",
    [{| name := "FeatureComputer"; capability_type := "feature-computation";
        input_mapping :=
          [("source_data_ref", "compute_input.source_data_ref");
           ("feature_definition_ref", "compute_input.feature_definition_ref")] |};
     {| name := "FeatureStoreWriter"; capability_type := "feature-storage";
        input_mapping :=
          [("staging_ref", "write_input.staging_ref");
           ("feature_set_ref", "write_input.feature_set_ref")] |}]);
   ("RetrieveFeatures",
    [{| name := "FeatureRetriever"; capability_type := "feature-retrieval";
        input_mapping :=
          [("feature_set_ref", "retrieve_input.feature_set_ref");
           ("entity_keys", "retrieve_input.entity_keys")] |}]);
   ("ProfileData",
    [{| name := "DataProfiler"; capability_type := "data-profiling";
        input_mapping :=
          [("dataset_ref", "profile_input.dataset_ref");
           ("sample_size", "profile_input.sample_size")] |}]);
   ("CommitDataVersion",
    [{| name := "DataCommitter"; capability_type := "data-versioning";
        input_mapping :=
          [("dataset_ref", "commit_input.dataset_ref");
           ("commit_message", "commit_input.commit_message")] |}]);
   ("BranchDataset",
    [{| name := "BranchCreator"; capability_type := "data-branching";
        input_mapping :=
          [("dataset_ref", "branch_input.dataset_ref");
           ("source_commit_ref", "branch_input.source_commit_ref")] |}]);
   ("MergeDataBranches",
    [{| name := "MergeComputer"; capability_type := "data-merging";
        input_mapping :=
          [("source_commit_ref", "merge_input.source_commit_ref");
           ("target_commit_ref", "merge_input.target_commit_ref")] |};
     {| name := "DataCommitter"; capability_type := "data-versioning";
        input_mapping :=
          [("dataset_ref", "commit_input.dataset_ref");
           ("commit_message", "commit_input.commit_message")] |}]);
   ("CreateLabelTask",
    [{| name := "LabelTaskCreator"; capability_type := "labeling-task";
        input_mapping :=
          [("source_dataset_ref", "task_input.source_dataset_ref");
           ("label_schema_ref", "task_input.label_schema_ref")] |}]);
   ("TestConnection",
    [{| name := "ConnectionProbe"; capability_type := "connection-testing";
        input_mapping :=
          [("connection_ref", "probe_input.connection_ref");
           ("timeout_seconds", "probe_input.timeout_seconds")] |}]);
   ("DiscoverSchema",
    [{| name := "SchemaIntrospector"; capability_type := "schema-discovery";
        input_mapping :=
          [("connection_ref", "introspection_input.connection_ref");
           ("source_path", "introspection_input.source_path")] |}]);
   ("ReplicateData",
    [{| name := "DataReplicator"; capability_type := "data-replication";
        input_mapping :=
          [("source_location_ref", "replication_input.source_location_ref");
           ("target_location_ref", "replication_input.target_location_ref")] |}]);
   ("QueryLocality",
    [{| name := "LocalitySignalGenerator"; capability_type := "locality-signaling";
        input_mapping := [("asset_ref", "asset_ref")] |}]);
   ("ValidateSchema",
    [{| name := "SchemaValidator"; capability_type := "schema-validation";
        input_mapping :=
          [("dataset_ref", "validation_input.dataset_ref");
           ("expected_schema_ref", "validation_input.expected_schema_ref")] |}])].

(** One [decompose_intent(intent_id=..., execution_units=...)] call. *)
Record EngineCall := {
  call_intent_id : UUID;
  call_execution_units : list (dict PyVal);
}.

(** The optional submission collaborator: its answers given the calls
    received so far, and those calls. *)
Record IntentEngine := {
  decompose_intent : list EngineCall -> EngineCall -> Completion bool;
  engine_calls : list EngineCall;
}.

Definition await_decompose (c : EngineCall) (engine : IntentEngine)
    : Completion bool * IntentEngine :=
  (decompose_intent engine (engine_calls engine) c,
   {| decompose_intent := decompose_intent engine;
      engine_calls := engine_calls engine ++ [c] |}).

Record DataFabricIntentHandler := {
  _intent_engine : option IntentEngine;
}.

Definition DOMAIN : string := "data-fabric".

(** [set(INTENT_TO_EXECUTION_UNITS.keys())] *)
Definition SUPPORTED_INTENTS : gset string :=
  list_to_set (PyDict.keys INTENT_TO_EXECUTION_UNITS).

Definition get_execution_units_for_intent (intent_type : string)
    : option (list ExecutionUnitRef) :=
  PyDict.get intent_type INTENT_TO_EXECUTION_UNITS.

Definition is_supported_intent (intent_type : string) : bool :=
  bool_decide (intent_type ∈ SUPPORTED_INTENTS).

(** One element of [eu_specs]. *)
Definition eu_spec (eu : ExecutionUnitRef) : dict PyVal :=
  [("name", VStr (name eu));
   ("capability_type", VStr (capability_type eu));
   ("input_mapping", VDict (map (fun kv => (fst kv, VStr (snd kv))) (input_mapping eu)));
   ("domain", VStr DOMAIN)].

Definition handle_intent (intent_id : UUID) (intent_type : string)
    (intent_params : dict PyVal) (self : DataFabricIntentHandler)
    : dict PyVal * DataFabricIntentHandler :=
  if negb (is_supported_intent intent_type) then
    ([("success", VBool false);
      ("error", VStr ("Unsupported intent type: " +:+ intent_type));
      ("domain", VStr DOMAIN)], self)
  else
    match get_execution_units_for_intent intent_type with
    | None | Some [] =>
        ([("success", VBool false);
          ("error", VStr ("No execution units mapped for intent: " +:+ intent_type));
          ("domain", VStr DOMAIN)], self)
    | Some execution_units =>
        let eu_specs := map eu_spec execution_units in
        let success_result :=
          [("success", VBool true);
           ("intent_id", VStr intent_id);
           ("intent_type", VStr intent_type);
           ("domain", VStr DOMAIN);
           ("execution_units", VList (map VDict eu_specs));
           ("unit_count", VInt (Z.of_nat (length eu_specs)))] in
        match _intent_engine self with
        | Some engine =>
            match await_decompose
                    {| call_intent_id := intent_id;
                       call_execution_units := eu_specs |} engine with
            | (Raises e, engine') =>
                ([("success", VBool false);
                  ("error", VStr ("Failed to submit decomposition: " +:+ exc_str e));
                  ("domain", VStr DOMAIN)],
                 {| _intent_engine := Some engine' |})
            | (Returns _, engine') =>
                (success_result, {| _intent_engine := Some engine' |})
            end
        | None => (success_result, self)
        end
    end.

Definition get_supported_intents : list string := elements SUPPORTED_INTENTS.

Definition get_intent_count : nat := size SUPPORTED_INTENTS.

End intent_handler.

(** ** [mcop/capability_provider.py] *)

Module capability_provider.

Record CapabilityProfile := {
  capability_type : string;
  compute_class : string;
  memory_requirements : string;
  io_pattern : string;
  tags : list string;
}.

Definition profile (ty cc mem io : string) (tg : list string) : CapabilityProfile :=
  {| capability_type := ty; compute_class := cc; memory_requirements := mem;
     io_pattern := io; tags := tg |}.

Definition EXECUTION_UNIT_CAPABILITIES : dict CapabilityProfile :=
  [("DataAssetRegistrar",
    profile "data-registration" "cpu-small" "low" "write-registry"
      ["registry"; "metadata"; "stateless"]);
   ("ConnectionProbe",
    profile "connection-testing" "cpu-small" "low" "network-probe"
      ["connection"; "health"; "stateless"]);
   ("SchemaIntrospector",
    profile "schema-discovery" "cpu-small" "low" "read-external"
      ["schema"; "discovery"; "stateless"]);
   ("DataExtractor",
    profile "data-extraction" "cpu-medium" "medium" "read-external-write-staging"
      ["extraction"; "ingestion"; "stateless"]);
   ("DataWriter",
    profile "data-writing" "cpu-medium" "medium" "read-staging-write-dataset"
      ["write"; "persistence"; "stateless"]);
   ("TransformExecutor",
    profile "data-transformation" "cpu-large" "high" "read-process-write"
      ["transform"; "processing"; "stateless"]);
   ("DataJoiner",
    profile "data-joining" "cpu-large" "high" "read-multi-write"
      ["join"; "merge"; "stateless"]);
   ("AggregationComputer",
    profile "data-aggregation" "cpu-medium" "high" "read-aggregate-write"
      ["aggregation"; "analytics"; "stateless"]);
   ("FeatureComputer",
    profile "feature-computation" "cpu-large" "high" "read-compute-write"
      ["feature"; "ml"; "stateless"]);
   ("FeatureStoreWriter",
    profile "feature-storage" "cpu-medium" "medium" "read-staging-write-store"
      ["feature"; "store"; "stateless"]);
   ("FeatureRetriever",
    profile "feature-retrieval" "cpu-small" "low" "read-store"
      ["feature"; "retrieval"; "stateless"]);
   ("DataProfiler",
    profile "data-profiling" "cpu-medium" "medium" "read-analyze"
      ["profiling"; "quality"; "stateless"]);
   ("SchemaValidator",
    profile "schema-validation" "cpu-small" "low" "read-validate"
      ["schema"; "validation"; "stateless"]);
   ("DataCommitter",
    profile "data-versioning" "cpu-small" "low" "read-commit"
      ["commit"; "versioning"; "stateless"]);
   ("BranchCreator",
    profile "data-branching" "cpu-small" "low" "write-registry"
      ["branch"; "versioning"; "stateless"]);
   ("MergeComputer",
    profile "data-merging" "cpu-medium" "medium" "read-multi-compute"
      ["merge"; "versioning"; "stateless"]);
   ("DataReplicator",
    profile "data-replication" "cpu-medium" "medium" "read-write-remote"
      ["replication"; "locality"; "stateless"]);
   ("LocalitySignalGenerator",
    profile "locality-signaling" "cpu-small" "low" "read-probe"
      ["locality"; "scheduling"; "stateless"]);
   ("LabelTaskCreator",
    profile "labeling-task" "cpu-small" "low" "write-registry"
      ["labeling"; "task"; "stateless"]);
   ("LabelRecorder",
    profile "label-recording" "cpu-small" "low" "write-store"
      ["labeling"; "annotation"; "stateless"]);
   ("LineageEdgeWriter",
    profile "lineage-recording" "cpu-small" "low" "write-registry"
      ["lineage"; "provenance"; "stateless"]);
   ("QualityGateEvaluator",
    profile "quality-evaluation" "cpu-medium" "medium" "read-evaluate"
      ["quality"; "gate"; "stateless"])].

(** One [provide_capability(execution_unit_name, capability_profile)] call. *)
Record SchedulerCall := {
  call_execution_unit_name : string;
  call_capability_profile : CapabilityProfile;
}.

(** The optional MCOP scheduler: its answers given the calls received so
    far, and those calls. *)
Record MCOPScheduler := {
  provide_capability : list SchedulerCall -> SchedulerCall -> Completion bool;
  scheduler_calls : list SchedulerCall;
}.

Definition await_provide (c : SchedulerCall) (scheduler : MCOPScheduler)
    : Completion bool * MCOPScheduler :=
  (provide_capability scheduler (scheduler_calls scheduler) c,
   {| provide_capability := provide_capability scheduler;
      scheduler_calls := scheduler_calls scheduler ++ [c] |}).

Record DataFabricCapabilityProvider := {
  _mcop_scheduler : option MCOPScheduler;
  _provided_capabilities : gset string;
  stdout : list string;
}.

Definition DataFabricCapabilityProvider_new (mcop_scheduler : option MCOPScheduler)
    : DataFabricCapabilityProvider :=
  {| _mcop_scheduler := mcop_scheduler; _provided_capabilities := ∅; stdout := [] |}.

(** The [for name, profile in EXECUTION_UNIT_CAPABILITIES.items()] loop. *)
Fixpoint provide_each (units : list (string * CapabilityProfile))
    (scheduler : MCOPScheduler) (results : dict bool)
    (provided : gset string) (out : list string)
    : dict bool * MCOPScheduler * gset string * list string :=
  match units with
  | [] => (results, scheduler, provided, out)
  | (name, profile) :: rest =>
      match await_provide
              {| call_execution_unit_name := name;
                 call_capability_profile := profile |} scheduler with
      | (Returns success, scheduler') =>
          provide_each rest scheduler' (PyDict.set name success results)
            (if success then provided ∪ {[name]} else provided) out
      | (Raises e, scheduler') =>
          provide_each rest scheduler' (PyDict.set name false results) provided
            (out ++ ["Warning: Failed to provide capability " +:+ name
                       +:+ ": " +:+ exc_str e])
      end
  end.

Definition provide_all_capabilities (self : DataFabricCapabilityProvider)
    : dict bool * DataFabricCapabilityProvider :=
  match _mcop_scheduler self with
  | None =>
      (fold_left (fun d name => PyDict.set name true d)
         (PyDict.keys EXECUTION_UNIT_CAPABILITIES) [], self)
  | Some scheduler =>
      let '(results, scheduler', provided, out) :=
        provide_each (PyDict.items EXECUTION_UNIT_CAPABILITIES) scheduler []
          (_provided_capabilities self) (stdout self) in
      (results,
       {| _mcop_scheduler := Some scheduler'; _provided_capabilities := provided;
          stdout := out |})
  end.

Definition get_capability_profile (execution_unit_name : string) : option CapabilityProfile :=
  PyDict.get execution_unit_name EXECUTION_UNIT_CAPABILITIES.

Definition get_provided_capabilities (self : DataFabricCapabilityProvider) : gset string :=
  _provided_capabilities self.

Definition get_capability_count : nat := PyDict.len EXECUTION_UNIT_CAPABILITIES.

End capability_provider.

(** ** Vocabulary of the specification *)

Module Spec.

(** The flag a completed collaborator call stands for: an exception counts
    as [False]. *)
Definition succeeded (o : Completion bool) : bool :=
  match o with
  | Returns b => b
  | Raises _ => false
  end.

(** The names of the unit specs listed under [execution_units] in the
    result of [handle_intent]. *)
Definition unit_names (result : dict PyVal) : option (list (option PyVal)) :=
  match PyDict.get "execution_units" result with
  | Some (VList specs) =>
      Some (map (fun spec => match spec with
                             | VDict d => PyDict.get "name" d
                             | _ => None
                             end) specs)
  | _ => None
  end.

(** The call [handle_intent] submits for a supported intent. *)
Definition submission (intent_id : UUID) (units : list intent_handler.ExecutionUnitRef)
    : intent_handler.EngineCall :=
  {| intent_handler.call_intent_id := intent_id;
     intent_handler.call_execution_units := map intent_handler.eu_spec units |}.

(** What the asset registry answers, call after call, when asked to
    unregister the given card ids in order: the flag of each call. *)
Fixpoint unregister_flags (card_ids : list UUID)
    (client : registry_loader.AssetRegistryClient) : list bool :=
  match card_ids with
  | [] => []
  | card_id :: rest =>
      let '(o, client') := registry_loader.await_unregister card_id client in
      succeeded o :: unregister_flags rest client'
  end.

(** The entries of a table of registered cards whose flag is [False]. *)
Definition flagged_false {A} (entries : list A) (flags : list bool) : list A :=
  map fst (List.filter (fun ef => negb (snd ef)) (combine entries flags)).

(** The registries a program can build: [SignalRegistry()] followed by any
    number of [add]. *)
Inductive reachable : signal_registry.SignalRegistry → Prop :=
| reachable_new : reachable signal_registry.SignalRegistry_new
| reachable_add signal registry :
    reachable registry → reachable (signal_registry.add signal registry).

(** [signal_type ∈ {metric, outcome, advisor}] *)
Definition is_category (ty : string) : Prop :=
  ty = "metric" ∨ ty = "outcome" ∨ ty = "advisor".

(** The bucket of a registry that keeps the signals of one type. *)
Definition category (ty : string) (registry : signal_registry.SignalRegistry)
    : dict signal_registry.SignalDefinition :=
  if String.eqb ty "metric" then signal_registry.metrics registry
  else if String.eqb ty "outcome" then signal_registry.outcomes registry
  else if String.eqb ty "advisor" then signal_registry.advisors registry
  else [].

(** The definitions of a list that carry a given name. *)
Definition named (n : string) (signals : list signal_registry.SignalDefinition)
    : list signal_registry.SignalDefinition :=
  List.filter (fun sd => String.eqb (signal_registry.name sd) n) signals.

(** Every entry of a bucket is filed under its own name and has the
    bucket's type, and no key occurs twice. *)
Definition bucket_ok (ty : string) (bucket : dict signal_registry.SignalDefinition) : Prop :=
  PyDict.wf bucket
  ∧ Forall (fun kv => signal_registry.name (snd kv) = fst kv
                      ∧ signal_registry.signal_type (snd kv) = ty) bucket.

Definition bucketed (registry : signal_registry.SignalRegistry) : Prop :=
  bucket_ok "metric" (signal_registry.metrics registry)
  ∧ bucket_ok "outcome" (signal_registry.outcomes registry)
  ∧ bucket_ok "advisor" (signal_registry.advisors registry).

(** The registry an emitter consults: the one its [FeedbackSignalRegistry]
    answers with, loaded from the signal files if it was not yet. *)
Definition consulted (self : signal_emitter.FeedbackSignalEmitter)
    : signal_registry.SignalRegistry :=
  fst (signal_registry.get_registry (signal_emitter._signal_registry self)).

(** A name the consulted registry does not hold with type [kind]: not
    held at all, or held with another type. *)
Definition unknown_as (kind n : string) (self : signal_emitter.FeedbackSignalEmitter) : bool :=
  match signal_registry.get n (consulted self) with
  | None => true
  | Some sd => negb (String.eqb (signal_registry.signal_type sd) kind)
  end.

(** A runtime whose n-th UUID and n-th clock reading are determined by n. *)
Definition sample_runtime : Runtime :=
  {| uuid_stream := fun n => "uuid-" +:+ String (ascii_of_nat (48 + n)) "";
     time_stream := fun n => Z.of_nat n;
     uuid_draws := 0; time_reads := 0 |}.

(** A sink that accepts every call. *)
Definition accepting_spine : signal_emitter.ObservabilitySpine :=
  {| signal_emitter.spine_behaviour := fun _ _ => Returns true;
     signal_emitter.spine_calls := [] |}.

(** The trigger rule in the specification's words: [always] emits,
    [on_success] emits only on success, [on_failure] only on failure; other
    conditions are not specified. *)
Definition qualifies (condition : string) (success : bool) : option bool :=
  if String.eqb condition "always" then Some true
  else if String.eqb condition "on_success" then Some success
  else if String.eqb condition "on_failure" then Some (negb success)
  else None.

(** A signal that gets past the two [continue] guards of
    [emit_for_execution_unit]. *)
Definition triggered (success : bool) (signal_def : signal_registry.SignalDefinition) : bool :=
  negb (py_eq_str (signal_emitter.condition_of signal_def) "on_success" && negb success)
  && negb (py_eq_str (signal_emitter.condition_of signal_def) "on_failure" && success).

(** A signal whose trigger lists the execution unit. *)
Definition names_unit (eu_name : string) (signal : signal_registry.SignalDefinition) : bool :=
  match py_str_in eu_name
          (get_or (PyDict.get "execution_units" (signal_registry.emission_trigger signal))
             (VList [])) with
  | Returns true => true
  | _ => false
  end.

(** The first intended consumer of a signal, if any, names its consumer, as
    the declarative signal schema requires. *)
Definition consumer_named (signal_def : signal_registry.SignalDefinition) : Prop :=
  match signal_registry.intended_consumers signal_def with
  | [] => True
  | c :: _ => is_Some (PyDict.get "consumer" c)
  end.

(** What identifies a signal, and the emission made for it: name and type. *)
Definition signal_key (signal_def : signal_registry.SignalDefinition) : string * string :=
  (signal_registry.name signal_def, signal_registry.signal_type signal_def).

Definition emission_key (result : signal_emitter.EmissionResult) : string * string :=
  (signal_emitter.signal_name result, signal_emitter.signal_type result).

End Spec.

(** ** Sample inputs *)

Module Samples.
Import signal_registry.

Definition signal_doc (n ty condition : string) (units : list string)
    (consumers : list (dict string)) : JsonFile SignalDocument :=
  JsonObject
    {| doc_metadata :=
         Some {| md_name := Some n; md_version := Some "1.0.0";
                 md_domain := Some "data-fabric" |};
       doc_signal_type := Some ty;
       doc_description := Some "";
       doc_emission_trigger :=
         Some [("condition", VStr condition);
               ("execution_units", VList (map VStr units))];
       doc_schema := Some [];
       doc_intended_consumers := Some consumers |}.

Definition signal_def (n ty condition : string) (units : list string)
    (consumers : list (dict string)) : SignalDefinition :=
  {| name := n; version := "1.0.0"; signal_type := ty; description := "";
     emission_trigger :=
       [("condition", VStr condition); ("execution_units", VList (map VStr units))];
     schema := []; intended_consumers := consumers; domain := "data-fabric" |}.

(** A [feedback_signals] directory with four signals, three of them
    triggered by the unit DataProfiler. *)
Definition feedback_signals_dir : list (string * JsonFile SignalDocument) :=
  [("feedback_signals/data_ingestion_volume.json",
    signal_doc "DataIngestionVolume" "metric" "on_success" ["DataExtractor"] []);
   ("feedback_signals/profile_duration.json",
    signal_doc "ProfileDuration" "metric" "always" ["DataProfiler"] []);
   ("feedback_signals/profile_failed.json",
    signal_doc "ProfileFailed" "advisor" "on_failure" ["DataProfiler"]
      [[("consumer", "scheduler")]]);
   ("feedback_signals/profile_outcome.json",
    signal_doc "ProfileOutcome" "outcome" "on_success" ["DataProfiler"] [])].

Definition profiler_signals : list SignalDefinition :=
  [signal_def "ProfileDuration" "metric" "always" ["DataProfiler"] [];
   signal_def "ProfileOutcome" "outcome" "on_success" ["DataProfiler"] [];
   signal_def "ProfileFailed" "advisor" "on_failure" ["DataProfiler"]
     [[("consumer", "scheduler")]]].

Definition card_doc (n : option string) (ty : option string) : JsonFile registry_loader.CardDocument :=
  JsonObject
    {| registry_loader.doc_metadata :=
         Some {| registry_loader.md_name := n;
                 registry_loader.md_version := Some "1.0.0";
                 registry_loader.md_domain := Some "data-fabric";
                 registry_loader.md_adr_reference := Some "ADR-001" |};
       registry_loader.doc_capability :=
         Some {| registry_loader.cap_type := ty;
                 registry_loader.cap_tags := Some ["stateless"];
                 registry_loader.cap_description := Some "" |};
       registry_loader.doc_input_contract := Some [("type", VStr "object")];
       registry_loader.doc_output_contract := Some [("type", VStr "object")];
       registry_loader.doc_consumer_intents := Some [];
       registry_loader.doc_failure_modes := Some [] |}.

(** A [registry_cards] directory: a malformed file, a complete card, and a
    card whose [capability] object has no [type]. *)
Definition registry_cards_dir : list (string * JsonFile registry_loader.CardDocument) :=
  [("registry_cards/broken.json", MalformedJson "Expecting value: line 1 column 1 (char 0)");
   ("registry_cards/data_writer.json", card_doc (Some "DataWriter") (Some "data-writing"));
   ("registry_cards/untyped.json", card_doc (Some "DataProfiler") None)].

(** An asset registry that registers every card under the id "id-" followed
    by its name, and answers [answer] to every unregistration. *)
Definition registry_client (answer : Completion bool) : registry_loader.AssetRegistryClient :=
  {| registry_loader.register_capability :=
       fun _ args => Returns ("id-" +:+ registry_loader.arg_name args);
     registry_loader.unregister_capability := fun _ _ => answer;
     registry_loader.registry_calls := [] |}.

Definition card_loader (answer : Completion bool) : registry_loader.RegistryCardLoader :=
  registry_loader.RegistryCardLoader_new (registry_client answer)
    (Some registry_cards_dir) Spec.sample_runtime.

Definition profiler_emitter : signal_emitter.FeedbackSignalEmitter :=
  signal_emitter.FeedbackSignalEmitter_new (Some Spec.accepting_spine)
    (FeedbackSignalRegistry_new (Some feedback_signals_dir)) Spec.sample_runtime.

End Samples.

(** ** Further vocabulary *)

Module Cover.

(** Whether a directory entry holds a JSON object. *)
Definition is_object {Doc} (f : string * JsonFile Doc) : bool :=
  match snd f with
  | JsonObject _ => true
  | MalformedJson _ => false
  end.

(** [trigger.get("execution_units", [])] *)
Definition trigger_units (signal : signal_registry.SignalDefinition) : PyVal :=
  get_or (PyDict.get "execution_units" (signal_registry.emission_trigger signal))
    (VList []).

(** The values on which [in] raises [TypeError]. *)
Definition non_iterable (v : PyVal) : bool :=
  match v with
  | VNone | VBool _ | VInt _ => true
  | _ => false
  end.

(** An entry of the dict [get_signal_count] or [get_emission_count] returns. *)
Definition count (key : string) (counts : dict Z) : Z :=
  get_or (PyDict.get key counts) 0%Z.

(** Every entry of the audit log carries one of the three type tags. *)
Definition log_typed (self : signal_emitter.FeedbackSignalEmitter) : Prop :=
  Forall (fun e => Spec.is_category (signal_emitter.signal_type e))
    (signal_emitter._emissions self).

(** The [name] and [capability_type] a registration was made with. *)
Definition registered_as (c : registry_loader.RegistryCall) : option (string * string) :=
  match c with
  | registry_loader.call_register args =>
      Some (registry_loader.arg_name args, registry_loader.arg_capability_type args)
  | registry_loader.call_unregister _ => None
  end.

(** The call [provide_all_capabilities] makes for one entry of the table. *)
Definition provide_call (entry : string * capability_provider.CapabilityProfile)
    : capability_provider.SchedulerCall :=
  {| capability_provider.call_execution_unit_name := fst entry;
     capability_provider.call_capability_profile := snd entry |}.

(** An advisor signal whose first intended consumer lacks the key
    [consumer]. *)
Definition unnamed_consumer (signal_def : signal_registry.SignalDefinition) : Prop :=
  signal_registry.signal_type signal_def = "advisor"
  ∧ ∃ c rest, signal_registry.intended_consumers signal_def = c :: rest
              ∧ PyDict.get "consumer" c = None.

End Cover.

(** * Properties *)

(** ** Dictionaries *)

Section PyDictFacts.
Context {V : Type}.
Implicit Types (d : dict V) (k : string) (v : V).

Lemma get_set_eq k v d : PyDict.get k (PyDict.set k v d) = Some v.
Proof.
  induction d as [|[k' v'] d IH]; simpl.
  - by rewrite String.eqb_refl.
  - destruct (String.eqb k k') eqn:E; simpl.
    + by rewrite String.eqb_refl.
    + by rewrite E.
Qed.

Lemma get_set_ne k k' v d : k ≠ k' → PyDict.get k' (PyDict.set k v d) = PyDict.get k' d.
Proof.
  intros Hne. induction d as [|[k0 v0] d IH]; simpl.
  - destruct (String.eqb_spec k' k); congruence.
  - destruct (String.eqb_spec k k0) as [->|Hk]; simpl.
    + destruct (String.eqb_spec k' k0); congruence.
    + destruct (String.eqb_spec k' k0); congruence.
Qed.

Lemma get_None_keys k d : PyDict.get k d = None ↔ k ∉ PyDict.keys d.
Proof.
  induction d as [|[k' v'] d IH]; simpl.
  - split; [intros _; apply not_elem_of_nil | done].
  - rewrite not_elem_of_cons. destruct (String.eqb_spec k k') as [->|Hk].
    + split; [done | intros [? _]; done].
    + rewrite IH. tauto.
Qed.

Lemma get_Some_keys k d : is_Some (PyDict.get k d) ↔ k ∈ PyDict.keys d.
Proof.
  destruct (PyDict.get k d) eqn:E.
  - split; [intros _ | by eauto].
    destruct (decide (k ∈ PyDict.keys d)) as [|Hn]; [done|].
    apply get_None_keys in Hn. congruence.
  - split; [by intros [? ?] | intros Hin]. by apply get_None_keys in E.
Qed.

Lemma contains_keys k d : PyDict.contains k d = true ↔ k ∈ PyDict.keys d.
Proof.
  rewrite <- get_Some_keys. unfold PyDict.contains.
  destruct (PyDict.get k d); split; eauto; try done; by intros [? ?].
Qed.

Lemma keys_set k v d :
  PyDict.keys (PyDict.set k v d)
  = if PyDict.contains k d then PyDict.keys d else PyDict.keys d ++ [k].
Proof.
  unfold PyDict.contains. induction d as [|[k' v'] d IH]; simpl; [done|].
  destruct (String.eqb_spec k k') as [->|Hk]; simpl; [done|].
  rewrite IH. by destruct (PyDict.get k d).
Qed.

Lemma wf_set k v d : PyDict.wf d → PyDict.wf (PyDict.set k v d).
Proof.
  unfold PyDict.wf. rewrite keys_set. intros Hd.
  destruct (PyDict.contains k d) eqn:E; [done|].
  apply NoDup_app. split_and!; [done| |apply NoDup_singleton].
  intros x Hx ->%list_elem_of_singleton.
  apply contains_keys in Hx. congruence.
Qed.

Lemma remove_fresh k d : k ∉ PyDict.keys d → PyDict.remove k d = d.
Proof.
  induction d as [|[k' v'] d IH]; simpl; [done|].
  rewrite not_elem_of_cons. intros [Hk Hd].
  destruct (String.eqb_spec k k'); [done|]. by rewrite IH.
Qed.

Lemma remove_middle k v d1 d2 :
  k ∉ PyDict.keys d1 → PyDict.remove k (d1 ++ (k, v) :: d2) = d1 ++ d2.
Proof.
  induction d1 as [|[k' v'] d1 IH]; simpl.
  - by rewrite String.eqb_refl.
  - rewrite not_elem_of_cons. intros [Hk Hd].
    destruct (String.eqb_spec k k'); [done|]. by rewrite IH.
Qed.

Lemma contains_middle k v d1 d2 : PyDict.contains k (d1 ++ (k, v) :: d2) = true.
Proof.
  apply contains_keys. unfold PyDict.keys. rewrite map_app. simpl. set_solver.
Qed.

Lemma len_keys d : PyDict.len d = length (PyDict.keys d).
Proof. unfold PyDict.len, PyDict.keys. by rewrite length_map. Qed.

Lemma set_fresh k v d : k ∉ PyDict.keys d → PyDict.set k v d = d ++ [(k, v)].
Proof.
  induction d as [|[k' v'] d IH]; simpl; [done|].
  rewrite not_elem_of_cons. intros [Hk Hd].
  destruct (String.eqb_spec k k'); [done|]. by rewrite IH.
Qed.

(** Assigning fresh, pairwise distinct keys appends them in order. *)
Lemma update_fresh d kvs :
  NoDup (PyDict.keys d ++ PyDict.keys kvs) → PyDict.update d kvs = d ++ kvs.
Proof.
  unfold PyDict.update. revert d.
  induction kvs as [|[k v] kvs IH]; intros d; simpl;
    [intros _; by rewrite app_nil_r|].
  intros Hnd. rewrite set_fresh.
  - rewrite IH; [by rewrite <- app_assoc|].
    unfold PyDict.keys in *. rewrite map_app. simpl. by rewrite <- app_assoc.
  - apply NoDup_app in Hnd as (_ & Hdisj & _).
    intros Hin. apply (Hdisj k Hin). by apply elem_of_cons; left.
Qed.

End PyDictFacts.

(** ** Intent decomposition *)

Section IntentHandlerFacts.
Import intent_handler.

(** [is_supported_intent] is membership in the keys of the static table. *)
Lemma is_supported_intent_spec intent_type :
  is_supported_intent intent_type = true
  ↔ is_Some (PyDict.get intent_type INTENT_TO_EXECUTION_UNITS).
Proof.
  unfold is_supported_intent, SUPPORTED_INTENTS.
  rewrite bool_decide_eq_true, elem_of_list_to_set. symmetry. apply get_Some_keys.
Qed.

Lemma is_supported_intent_false intent_type :
  PyDict.get intent_type INTENT_TO_EXECUTION_UNITS = None →
  is_supported_intent intent_type = false.
Proof.
  intros Hnone. destruct (is_supported_intent intent_type) eqn:E; [|done].
  apply is_supported_intent_spec in E as [? ?]. congruence.
Qed.

(** No intent of the static table maps to an empty list of units. *)
Lemma mapped_units_nonempty intent_type units :
  PyDict.get intent_type INTENT_TO_EXECUTION_UNITS = Some units → units ≠ [].
Proof.
  assert (Hall : forallb (fun kv => negb (Nat.eqb (length (snd kv)) 0))
                   INTENT_TO_EXECUTION_UNITS = true) by (vm_compute; reflexivity).
  rewrite forallb_forall in Hall.
  generalize dependent Hall. generalize INTENT_TO_EXECUTION_UNITS as table.
  induction table as [|[k us] table IH]; simpl; [done|].
  intros Hall. destruct (String.eqb intent_type k).
  - intros [= <-] ->. by specialize (Hall (k, []) (or_introl eq_refl)).
  - apply IH. intros x Hx. apply Hall. by right.
Qed.

(** A supported intent whose submission raises is reported as a failure
    that carries the text of the exception. *)
Lemma handle_intent_submission_raises intent_id intent_type params engine units e :
  PyDict.get intent_type INTENT_TO_EXECUTION_UNITS = Some units →
  decompose_intent engine (engine_calls engine) (Spec.submission intent_id units)
    = Raises e →
  fst (handle_intent intent_id intent_type params {| _intent_engine := Some engine |})
  = [("success", VBool false);
     ("error", VStr ("Failed to submit decomposition: " +:+ exc_str e));
     ("domain", VStr DOMAIN)].
Proof.
  intros Hget Hraise. unfold handle_intent.
  assert (Hsup : is_supported_intent intent_type = true)
    by (apply is_supported_intent_spec; rewrite Hget; eauto).
  rewrite Hsup. simpl. unfold get_execution_units_for_intent. rewrite Hget.
  pose proof (mapped_units_nonempty _ _ Hget) as Hne.
  destruct units as [|u units]; [done|].
  unfold await_decompose. unfold Spec.submission in Hraise. simpl in *.
  by rewrite Hraise.
Qed.

(** C4 (as the code has it): an intent type outside the static table
    yields, without raising and without touching the handler, the failure
    dict whose [error] is the text "Unsupported intent type: " followed by
    the intent type. *)
Theorem handle_intent_unsupported intent_id intent_type params self :
  PyDict.get intent_type INTENT_TO_EXECUTION_UNITS = None →
  handle_intent intent_id intent_type params self
  = ([("success", VBool false);
      ("error", VStr ("Unsupported intent type: " +:+ intent_type));
      ("domain", VStr "data-fabric")], self).
Proof.
  intros Hnone. unfold handle_intent.
  by rewrite (is_supported_intent_false _ Hnone).
Qed.

Lemma handle_intent_unsupported_witness :
  PyDict.get "DropDatabase" INTENT_TO_EXECUTION_UNITS = None
  ∧ handle_intent "intent-1" "DropDatabase" [] {| _intent_engine := None |}
    = ([("success", VBool false);
        ("error", VStr "Unsupported intent type: DropDatabase");
        ("domain", VStr "data-fabric")], {| _intent_engine := None |}).
Proof.
  split; [reflexivity|].
  apply (handle_intent_unsupported "intent-1" "DropDatabase" []). reflexivity.
Defined.

(** C4 as stated fails: for the unsupported intent type "DropDatabase"
    the [error] field is not the string "UNSUPPORTED_INTENT". *)
Lemma handle_intent_unsupported_error_is_not_a_code :
  PyDict.get "DropDatabase" INTENT_TO_EXECUTION_UNITS = None
  ∧ PyDict.get "error"
      (fst (handle_intent "intent-1" "DropDatabase" [] {| _intent_engine := None |}))
    ≠ Some (VStr "UNSUPPORTED_INTENT").
Proof. split; [reflexivity|]. vm_compute. discriminate. Qed.

(** The flag [decompose_intent] returns is not inspected: with a
    collaborator that answers [False], [handle_intent] still reports success
    with the locally computed decomposition. *)
Theorem handle_intent_ignores_rejected_submission :
  let engine :=
    {| decompose_intent := fun _ _ => Returns false; engine_calls := [] |} in
  let result :=
    fst (handle_intent "intent-1" "IngestData" []
           {| _intent_engine := Some engine |}) in
  PyDict.get "success" result = Some (VBool true)
  ∧ PyDict.get "error" result = None
  ∧ PyDict.get "unit_count" result = Some (VInt 3).
Proof. vm_compute. done. Qed.

(** C7: with no submission collaborator, or with one whose call returns,
    "IngestData" decomposes successfully into exactly the units
    DataExtractor, DataWriter, LineageEdgeWriter, in that order. *)
Theorem ingest_data_decomposition intent_id params self :
  (∀ engine, _intent_engine self = Some engine →
     ∃ accepted,
       decompose_intent engine (engine_calls engine)
         (Spec.submission intent_id
            (get_or (get_execution_units_for_intent "IngestData") []))
       = Returns accepted) →
  let result := fst (handle_intent intent_id "IngestData" params self) in
  PyDict.get "success" result = Some (VBool true)
  ∧ Spec.unit_names result
    = Some [Some (VStr "DataExtractor"); Some (VStr "DataWriter");
            Some (VStr "LineageEdgeWriter")]
  ∧ PyDict.get "unit_count" result = Some (VInt 3).
Proof.
  intros Hok. unfold handle_intent.
  replace (is_supported_intent "IngestData") with true by (vm_compute; reflexivity).
  destruct self as [[engine|]]; simpl in *.
  - destruct (Hok engine eq_refl) as [accepted Hacc].
    unfold await_decompose. unfold Spec.submission in Hacc. simpl in Hacc.
    rewrite Hacc. vm_compute. done.
  - vm_compute. done.
Qed.

Lemma ingest_data_decomposition_witness :
  let engine :=
    {| decompose_intent := fun _ _ => Returns true; engine_calls := [] |} in
  Spec.unit_names
    (fst (handle_intent "intent-1" "IngestData" [] {| _intent_engine := Some engine |}))
  = Some [Some (VStr "DataExtractor"); Some (VStr "DataWriter");
          Some (VStr "LineageEdgeWriter")].
Proof.
  intros engine.
  refine (proj1 (proj2 (ingest_data_decomposition "intent-1" []
                          {| _intent_engine := Some engine |} _))).
  intros engine' [= <-]. by exists true.
Defined.

(** C6: for every supported intent type and every handler with a
    submission collaborator, when the notification fails (the call of
    [decompose_intent] raises), [handle_intent] returns a failure: [success]
    is [False], [error] carries the text of the exception, and the locally
    computed decomposition ([execution_units], [unit_count]) is not part of
    the result. *)
Theorem handle_intent_notification_failure intent_id intent_type params engine e :
  is_supported_intent intent_type = true →
  decompose_intent engine (engine_calls engine)
    (Spec.submission intent_id
       (get_or (get_execution_units_for_intent intent_type) []))
  = Raises e →
  let result :=
    fst (handle_intent intent_id intent_type params {| _intent_engine := Some engine |}) in
  PyDict.get "success" result = Some (VBool false)
  ∧ PyDict.get "error" result
    = Some (VStr ("Failed to submit decomposition: " +:+ exc_str e))
  ∧ PyDict.get "execution_units" result = None
  ∧ PyDict.get "unit_count" result = None.
Proof.
  intros [units Hget]%is_supported_intent_spec Hraise result. subst result.
  unfold get_execution_units_for_intent in Hraise. rewrite Hget in Hraise.
  simpl in Hraise.
  by rewrite (handle_intent_submission_raises _ _ params _ _ _ Hget Hraise).
Qed.

Lemma handle_intent_notification_failure_witness :
  let engine :=
    {| decompose_intent := fun _ _ =>
         Raises {| exc_class := "ConnectionError"; exc_str := "intent engine down" |};
       engine_calls := [] |} in
  let result :=
    fst (handle_intent "intent-1" "IngestData" [] {| _intent_engine := Some engine |}) in
  PyDict.get "success" result = Some (VBool false)
  ∧ PyDict.get "error" result
    = Some (VStr "Failed to submit decomposition: intent engine down").
Proof.
  intros engine result.
  destruct (handle_intent_notification_failure "intent-1" "IngestData" [] engine
              {| exc_class := "ConnectionError"; exc_str := "intent engine down" |})
    as (Hs & He & _).
  - vm_compute. reflexivity.
  - reflexivity.
  - split; [exact Hs | exact He].
Defined.

End IntentHandlerFacts.

(** ** Capability provider *)

Section CapabilityProviderFacts.
Import capability_provider.

(** The result of the dict comprehension [{name: True for name in names}]. *)
Lemma all_true_get names acc name :
  name ∈ names ∨ PyDict.get name acc = Some true →
  PyDict.get name (fold_left (fun d n => PyDict.set n true d) names acc) = Some true.
Proof.
  revert acc. induction names as [|n names IH]; simpl; intros acc.
  - intros [Hin|Hacc]; [by apply elem_of_nil in Hin | done].
  - intros Hor. apply IH.
    destruct (decide (name = n)) as [->|Hne].
    + right. apply get_set_eq.
    + destruct Hor as [Hin|Hacc].
      * left. apply elem_of_cons in Hin as [?|?]; done.
      * right. by rewrite get_set_ne.
Qed.

(** C10: without an MCOP scheduler, [provide_all_capabilities] answers
    [True] for each of the 22 execution units, and for nothing else, and
    leaves the provider as it was; a provider constructed without a
    scheduler therefore still reports the empty set of provided
    capabilities afterwards. *)
Theorem provide_all_capabilities_without_scheduler provided out :
  let self :=
    {| _mcop_scheduler := None; _provided_capabilities := provided; stdout := out |} in
  let results := fst (provide_all_capabilities self) in
  let self' := snd (provide_all_capabilities self) in
  PyDict.keys results = PyDict.keys EXECUTION_UNIT_CAPABILITIES
  ∧ PyDict.len results = 22
  ∧ (∀ name, name ∈ PyDict.keys EXECUTION_UNIT_CAPABILITIES →
       PyDict.get name results = Some true)
  ∧ self' = self
  ∧ get_provided_capabilities self' = provided
  ∧ get_provided_capabilities
      (snd (provide_all_capabilities (DataFabricCapabilityProvider_new None))) = ∅.
Proof.
  intros self results self'. subst results self' self.
  unfold provide_all_capabilities. cbn [_mcop_scheduler fst snd].
  split_and!; try reflexivity.
  intros name Hin. apply all_true_get. by left.
Qed.

End CapabilityProviderFacts.

(** ** Signal registry *)

Section SignalRegistryFacts.
Import signal_registry.
Implicit Types (registry : SignalRegistry) (signal : SignalDefinition).

Lemma elem_of_set {V} (kv : string * V) k v (d : dict V) :
  kv ∈ PyDict.set k v d → kv = (k, v) ∨ kv ∈ d.
Proof.
  induction d as [|[k' v'] d IH]; simpl.
  - intros ->%list_elem_of_singleton. by left.
  - destruct (String.eqb k k').
    + intros [->|?]%elem_of_cons; [by left | right; by apply elem_of_cons; right].
    + intros [->|Hin]%elem_of_cons; [right; by apply elem_of_cons; left|].
      destruct (IH Hin) as [?|?]; [by left | right; by apply elem_of_cons; right].
Qed.

Lemma bucket_ok_set ty signal bucket :
  signal_type signal = ty →
  Spec.bucket_ok ty bucket → Spec.bucket_ok ty (PyDict.set (name signal) signal bucket).
Proof.
  intros Hty [Hwf Hall]. split; [by apply wf_set|].
  apply Forall_forall. intros kv [->|Hin]%elem_of_set; [done|].
  by eapply Forall_forall in Hall.
Qed.

Lemma bucketed_add signal registry :
  Spec.bucketed registry → Spec.bucketed (add signal registry).
Proof.
  intros (Hm & Ho & Ha). unfold add.
  destruct (String.eqb_spec (signal_type signal) "metric");
    [split_and!; simpl; auto using bucket_ok_set|].
  destruct (String.eqb_spec (signal_type signal) "outcome");
    [split_and!; simpl; auto using bucket_ok_set|].
  destruct (String.eqb_spec (signal_type signal) "advisor");
    [split_and!; simpl; auto using bucket_ok_set|].
  done.
Qed.

Lemma reachable_bucketed registry : Spec.reachable registry → Spec.bucketed registry.
Proof.
  induction 1 as [|signal registry _ IH]; [|by apply bucketed_add].
  repeat split; simpl; try apply NoDup_nil_2; apply Forall_nil_2.
Qed.

(** In a well-formed bucket a name is carried by the entry filed under
    it, and by no other. *)
Lemma named_bucket ty n bucket :
  Spec.bucket_ok ty bucket →
  Spec.named n (PyDict.values bucket)
  = match PyDict.get n bucket with Some sd => [sd] | None => [] end.
Proof.
  intros [Hwf Hall]. unfold PyDict.wf in Hwf.
  induction bucket as [|[k sd] bucket IH]; [done|].
  apply NoDup_cons in Hwf as [Hk Hwf]. apply Forall_cons in Hall as [[Hname _] Hall].
  simpl in Hname, Hk. specialize (IH Hwf Hall).
  simpl. rewrite Hname.
  destruct (String.eqb_spec k n) as [->|Hkn].
  - rewrite String.eqb_refl. f_equal. rewrite IH.
    apply get_None_keys in Hk. by rewrite Hk.
  - destruct (String.eqb_spec n k); [congruence|]. exact IH.
Qed.

Lemma bucket_names_unique ty bucket :
  Spec.bucket_ok ty bucket → NoDup (map name (PyDict.values bucket)).
Proof.
  intros [Hwf Hall]. unfold PyDict.wf, PyDict.keys, PyDict.values in *.
  rewrite map_map. erewrite map_ext_Forall; [exact Hwf|].
  eapply Forall_impl; [exact Hall|]. by intros kv [? _].
Qed.

Lemma contains_false_get {V} n (d : dict V) :
  PyDict.contains n d = false → PyDict.get n d = None.
Proof. unfold PyDict.contains. by destruct (PyDict.get n d). Qed.

Lemma named_app n l1 l2 : Spec.named n (l1 ++ l2) = Spec.named n l1 ++ Spec.named n l2.
Proof. apply List.filter_app. Qed.

(** A name under which every definition has type [ty] is not a key of a
    bucket of another type. *)
Lemma foreign_bucket_free ty ty' n bucket :
  Spec.bucket_ok ty' bucket → ty' ≠ ty →
  (∀ sd, sd ∈ PyDict.values bucket → name sd = n → signal_type sd = ty) →
  PyDict.contains n bucket = false.
Proof.
  intros [_ Hall] Hne Hsame.
  destruct (PyDict.contains n bucket) eqn:E; [|done].
  unfold PyDict.contains in E. destruct (PyDict.get n bucket) as [sd|] eqn:G; [|done].
  assert (Hin : (n, sd) ∈ bucket).
  { clear -G. induction bucket as [|[k v] bucket IH]; simpl in G; [done|].
    destruct (String.eqb_spec n k) as [->|?].
    - injection G as ->. by apply elem_of_cons; left.
    - apply elem_of_cons; right. by apply IH. }
  eapply Forall_forall in Hall; [|exact Hin]. destruct Hall as [Hname Hty].
  simpl in *. exfalso. apply Hne. rewrite <- Hty. apply Hsame; [|done].
  unfold PyDict.values. apply list_elem_of_fmap. by exists (n, sd).
Qed.

Lemma values_subset_get_all registry :
  (∀ sd, sd ∈ PyDict.values (metrics registry) → sd ∈ get_all registry)
  ∧ (∀ sd, sd ∈ PyDict.values (outcomes registry) → sd ∈ get_all registry)
  ∧ (∀ sd, sd ∈ PyDict.values (advisors registry) → sd ∈ get_all registry).
Proof.
  unfold get_all. split_and!; intros sd Hin; rewrite !elem_of_app; auto.
Qed.

(** Rewrites with the fact that the bucket [Hb] of another type holds no
    entry under the name, given [Hsame]: all entries under the name have
    type [ty]. *)
Ltac absent_from ty Hb Sb Hsame :=
  rewrite (contains_false_get _ _
             (foreign_bucket_free ty _ _ _ Hb ltac:(done)
                (fun sd Hsd => Hsame sd (Sb sd Hsd)))).

(** C8 (as the code has it): a registry keeps one bucket per signal type,
    so names are unique within each category only.  Adding a definition of
    type metric, outcome or advisor overwrites the entry of the same name
    in its own category, which then holds the new definition and no other
    under that name; when every definition already filed under the name
    has the same type, [get] returns the new definition and the registry
    holds it alone under that name. *)
Theorem add_overwrites_within_category registry signal :
  Spec.reachable registry →
  Spec.is_category (signal_type signal) →
  let registry' := add signal registry in
  (∀ ty, NoDup (map name (get_by_type ty registry')))
  ∧ PyDict.get (name signal) (Spec.category (signal_type signal) registry')
    = Some signal
  ∧ Spec.named (name signal) (get_by_type (signal_type signal) registry') = [signal]
  ∧ ((∀ old, old ∈ get_all registry → name old = name signal →
             signal_type old = signal_type signal) →
     get (name signal) registry' = Some signal
     ∧ Spec.named (name signal) (get_all registry') = [signal]).
Proof.
  intros Hreach Hcat registry'.
  pose proof (reachable_bucketed _ Hreach) as (Hm & Ho & Ha).
  pose proof (reachable_bucketed _ (Spec.reachable_add signal _ Hreach))
    as (Hm' & Ho' & Ha').
  fold registry' in Hm', Ho', Ha'.
  destruct (values_subset_get_all registry) as (Sm & So & Sa).
  split.
  { intros ty. unfold get_by_type.
    repeat case_match; eauto using bucket_names_unique, NoDup_nil_2. }
  destruct Hcat as [Hty|[Hty|Hty]]; rewrite Hty in *;
    unfold Spec.category, get_by_type, get, get_all; simpl;
    subst registry'; unfold add in *; rewrite Hty in *; simpl in *.
  - split_and!; [apply get_set_eq| |intros Hsame].
    + erewrite named_bucket by exact Hm'. by rewrite get_set_eq.
    + rewrite get_set_eq. split; [done|].
      rewrite !named_app.
      erewrite (named_bucket _ _ _ Hm'), (named_bucket _ _ _ Ho), (named_bucket _ _ _ Ha).
      rewrite get_set_eq.
      absent_from "metric" Ho So Hsame.
      absent_from "metric" Ha Sa Hsame.
      done.
  - split_and!; [apply get_set_eq| |intros Hsame].
    + erewrite named_bucket by exact Ho'. by rewrite get_set_eq.
    + absent_from "outcome" Hm Sm Hsame.
      rewrite get_set_eq. split; [done|].
      rewrite !named_app.
      erewrite (named_bucket _ _ _ Hm), (named_bucket _ _ _ Ho'), (named_bucket _ _ _ Ha).
      rewrite get_set_eq.
      absent_from "outcome" Hm Sm Hsame.
      absent_from "outcome" Ha Sa Hsame.
      done.
  - split_and!; [apply get_set_eq| |intros Hsame].
    + erewrite named_bucket by exact Ha'. by rewrite get_set_eq.
    + absent_from "advisor" Hm Sm Hsame.
      absent_from "advisor" Ho So Hsame.
      rewrite get_set_eq. split; [done|].
      rewrite !named_app.
      erewrite (named_bucket _ _ _ Hm), (named_bucket _ _ _ Ho), (named_bucket _ _ _ Ha').
      rewrite get_set_eq.
      absent_from "advisor" Hm Sm Hsame.
      absent_from "advisor" Ho So Hsame.
      done.
Qed.

Lemma add_overwrites_within_category_witness :
  let old :=
    {| name := "DataIngestionVolume"; version := "1.0.0"; signal_type := "metric";
       description := "bytes ingested"; emission_trigger := []; schema := [];
       intended_consumers := []; domain := "data-fabric" |} in
  let new :=
    {| name := "DataIngestionVolume"; version := "2.0.0"; signal_type := "metric";
       description := "rows ingested"; emission_trigger := []; schema := [];
       intended_consumers := []; domain := "data-fabric" |} in
  get "DataIngestionVolume" (add new (add old SignalRegistry_new)) = Some new
  ∧ Spec.named "DataIngestionVolume" (get_all (add new (add old SignalRegistry_new)))
    = [new].
Proof.
  intros old new.
  refine (proj2 (proj2 (proj2
            (add_overwrites_within_category (add old SignalRegistry_new) new
               (Spec.reachable_add old _ Spec.reachable_new)
               (or_introl eq_refl)))) _).
  intros sd Hin _. vm_compute in Hin.
  apply list_elem_of_singleton in Hin. by subst sd.
Defined.

(** C8 as stated fails: after a metric named "Throughput" is added, adding
    an outcome of the same name leaves both in the registry, and [get]
    still returns the metric. *)
Lemma add_same_name_other_type_keeps_both :
  let old :=
    {| name := "Throughput"; version := "1.0.0"; signal_type := "metric";
       description := ""; emission_trigger := []; schema := [];
       intended_consumers := []; domain := "data-fabric" |} in
  let new :=
    {| name := "Throughput"; version := "1.0.0"; signal_type := "outcome";
       description := ""; emission_trigger := []; schema := [];
       intended_consumers := []; domain := "data-fabric" |} in
  let registry := add old SignalRegistry_new in
  Spec.reachable registry
  ∧ get "Throughput" registry = Some old
  ∧ get "Throughput" (add new registry) ≠ Some new
  ∧ Spec.named "Throughput" (get_all (add new registry)) = [old; new].
Proof.
  intros old new registry. split_and!.
  - apply Spec.reachable_add, Spec.reachable_new.
  - reflexivity.
  - vm_compute. discriminate.
  - reflexivity.
Qed.

(** A definition whose type is none of the three is not stored at all. *)
Lemma add_other_type_is_dropped signal registry :
  ¬ Spec.is_category (signal_type signal) → add signal registry = registry.
Proof.
  intros Hcat. unfold add, Spec.is_category in *.
  repeat case_match; try done; exfalso; apply Hcat;
    repeat match goal with H : (_ =? _)%string = true |- _ =>
      apply String.eqb_eq in H end; auto.
Qed.

End SignalRegistryFacts.

(** ** Feedback signal registry: lazy loading *)

Section FeedbackSignalRegistryFacts.
Import signal_registry.

(** Once consulted, a registry answers the same from then on. *)
Lemma get_registry_stable self :
  get_registry (snd (get_registry self)) = get_registry self.
Proof.
  unfold get_registry, load.
  destruct (_loaded self) eqn:Hl; simpl; [by rewrite Hl|].
  destruct (feedback_signals self) as [files|] eqn:Hf; simpl.
  - by destruct (load_files files (_registry self) (stdout self)).
  - by rewrite Hl, Hf.
Qed.

Lemma get_signal_spec n self :
  get_signal n self = (get n (fst (get_registry self)), snd (get_registry self)).
Proof. unfold get_signal. by destruct (get_registry self). Qed.

Lemma load_files_reachable files registry out :
  Spec.reachable registry → Spec.reachable (fst (load_files files registry out)).
Proof.
  revert registry out. induction files as [|[path content] files IH]; simpl; [done|].
  intros registry out Hreach.
  destruct (_load_signal_from_file content); apply IH; [|done].
  by apply Spec.reachable_add.
Qed.

(** Loading only ever [add]s. *)
Lemma get_registry_reachable self :
  Spec.reachable (_registry self) → Spec.reachable (fst (get_registry self)).
Proof.
  intros Hreach. unfold get_registry, load.
  destruct (_loaded self); simpl; [done|].
  destruct (feedback_signals self) as [files|]; simpl; [|done].
  pose proof (load_files_reachable files _ (stdout self) Hreach) as Hl.
  by destruct (load_files files (_registry self) (stdout self)).
Qed.

(** The only exception [_load_signal_from_file] raises is the one the
    [except] clause of [load] catches. *)
Lemma load_signal_raises_decode_error content e :
  _load_signal_from_file content = Raises e →
  is_instance e ["JSONDecodeError"; "KeyError"] = true.
Proof. destruct content; simpl; [|done]. by intros [= <-]. Qed.

End FeedbackSignalRegistryFacts.

(** ** Feedback signal emitter *)

Section EmitterFacts.
Import signal_registry signal_emitter.
Implicit Types (self : FeedbackSignalEmitter).

Lemma emit_signal_tags kind call n intent_id values self :
  signal_name (fst (emit_signal kind call n intent_id values self)) = n
  ∧ signal_emitter.signal_type (fst (emit_signal kind call n intent_id values self)) = kind.
Proof.
  unfold emit_signal. rewrite get_signal_spec.
  repeat (case_match; simpl; try done).
Qed.

(** The early return: a failed result, no call on the sink, nothing
    appended to the audit log. *)
Lemma emit_signal_unknown kind call n intent_id values self :
  Spec.unknown_as kind n self = true →
  let result := fst (emit_signal kind call n intent_id values self) in
  let self' := snd (emit_signal kind call n intent_id values self) in
  success result = false
  ∧ error result = Some ("Unknown " +:+ kind +:+ ": " +:+ n)
  ∧ _spine self' = _spine self
  ∧ _emissions self' = _emissions self.
Proof.
  unfold Spec.unknown_as, Spec.consulted, emit_signal. rewrite get_signal_spec.
  intros Hunknown. simpl.
  destruct (get n (get_registry (_signal_registry self)).1) as [sd|];
    simpl in *; rewrite ?Hunknown; simpl; done.
Qed.

(** Past the early return, whatever the sink does: the returned result is
    the one entry appended to the audit log. *)
Lemma emit_signal_known kind call n intent_id values self :
  Spec.unknown_as kind n self = false →
  let result := fst (emit_signal kind call n intent_id values self) in
  let self' := snd (emit_signal kind call n intent_id values self) in
  _emissions self' = _emissions self ++ [result].
Proof.
  unfold Spec.unknown_as, Spec.consulted, emit_signal. rewrite get_signal_spec.
  intros Hknown. simpl.
  destruct (get n (get_registry (_signal_registry self)).1) as [sd|];
    simpl in *; [|done].
  rewrite Hknown. simpl.
  destruct (_spine self) as [spine|]; simpl; [|done].
  by destruct (spine_behaviour spine (spine_calls spine) _).
Qed.

(** C9: a name the registry does not hold as a metric (unknown, or held
    with another signal type) makes [emit_metric] return a failed result
    with an error text, without any call on the observability sink. *)
Theorem emit_metric_unknown_signal metric_name intent_id tenant_context values self :
  (∀ sd, get metric_name (Spec.consulted self) = Some sd →
         signal_registry.signal_type sd ≠ "metric") →
  let result := fst (emit_metric metric_name intent_id tenant_context values self) in
  let self' := snd (emit_metric metric_name intent_id tenant_context values self) in
  success result = false
  ∧ error result ≠ None
  ∧ error result = Some ("Unknown metric: " +:+ metric_name)
  ∧ sink_calls self' = sink_calls self.
Proof.
  intros Hnot result self'.
  assert (Hunknown : Spec.unknown_as "metric" metric_name self = true).
  { unfold Spec.unknown_as.
    destruct (get metric_name (Spec.consulted self)) as [sd|] eqn:G; [|done].
    specialize (Hnot sd eq_refl).
    destruct (String.eqb_spec (signal_registry.signal_type sd) "metric"); done. }
  destruct (emit_signal_unknown "metric"
              (fun payload now =>
                 spine_emit_metric metric_name payload tenant_context now)
              metric_name intent_id values self Hunknown)
    as (Hs & He & Hsp & _).
  subst result self'. unfold emit_metric, sink_calls.
  rewrite Hs, He, Hsp. done.
Qed.

Lemma emit_metric_unknown_signal_witness :
  let gate :=
    {| name := "DataQualityGateOutcome"; version := "1.0.0";
       signal_registry.signal_type := "outcome"; description := "";
       emission_trigger := []; schema := []; intended_consumers := [];
       domain := "data-fabric" |} in
  let registry :=
    {| feedback_signals := None; _registry := add gate SignalRegistry_new;
       _loaded := true; signal_registry.stdout := [] |} in
  let self :=
    FeedbackSignalEmitter_new (Some Spec.accepting_spine) registry Spec.sample_runtime in
  success (fst (emit_metric "DataQualityGateOutcome" "intent-1" [] [] self)) = false
  ∧ sink_calls (snd (emit_metric "DataQualityGateOutcome" "intent-1" [] [] self)) = [].
Proof.
  intros gate registry self.
  assert (Hnot : ∀ sd, get "DataQualityGateOutcome" (Spec.consulted self) = Some sd →
                       signal_registry.signal_type sd ≠ "metric").
  { intros sd Hget. vm_compute in Hget. injection Hget as <-. discriminate. }
  destruct (emit_metric_unknown_signal "DataQualityGateOutcome" "intent-1" [] [] self Hnot)
    as (Hs & _ & _ & Hcalls).
  split; [exact Hs | exact Hcalls].
Defined.

(** C1 at the failing input: on an emitter whose registry holds no signal,
    each of [emit_metric], [emit_outcome], [emit_advisor] called with the
    name "NoSuchSignal" returns a failed [EmissionResult] and leaves the
    audit log empty: [get_emissions] has not grown and does not contain
    the returned result. *)
Theorem emit_unknown_signal_is_not_recorded :
  let self :=
    FeedbackSignalEmitter_new (Some Spec.accepting_spine)
      (FeedbackSignalRegistry_new None) Spec.sample_runtime in
  let metric := emit_metric "NoSuchSignal" "intent-1" [] [] self in
  let outcome := emit_outcome "NoSuchSignal" "intent-1" [] [] self in
  let advisor := emit_advisor "NoSuchSignal" "intent-1" [] [] "scheduler" self in
  get_emissions self = []
  ∧ success (fst metric) = false ∧ get_emissions (snd metric) = []
  ∧ success (fst outcome) = false ∧ get_emissions (snd outcome) = []
  ∧ success (fst advisor) = false ∧ get_emissions (snd advisor) = [].
Proof. vm_compute. done. Qed.

(** The other half of C1, which the code does satisfy: for a signal held
    with the matching type, whether the sink is absent, returns or raises,
    [emit_metric] appends exactly the result it returns. *)
Lemma emit_metric_known_is_recorded metric_name intent_id tenant_context values self :
  Spec.unknown_as "metric" metric_name self = false →
  get_emissions (snd (emit_metric metric_name intent_id tenant_context values self))
  = get_emissions self
      ++ [fst (emit_metric metric_name intent_id tenant_context values self)].
Proof. intros Hknown. by apply emit_signal_known. Qed.

(** *** Trigger evaluation *)

Lemma key_in_filter {A B} (f : A → B) (P : A → bool) (l : list A) (x : A) :
  NoDup (map f l) → x ∈ l → (f x ∈ map f (List.filter P l) ↔ P x = true).
Proof.
  assert (Hsub : ∀ l y, y ∈ map f (List.filter P l) → y ∈ map f l).
  { clear. intros l y. induction l as [|a l IH]; simpl; [done|].
    destruct (P a); simpl; rewrite !elem_of_cons; tauto. }
  induction l as [|a l IH]; simpl; [by intros _ ?%elem_of_nil|].
  intros [Ha Hl]%NoDup_cons Hin.
  assert (Hmap : ∀ y, y ∈ l → f y ∈ map f l).
  { intros y Hy. apply list_elem_of_fmap. by exists y. }
  apply elem_of_cons in Hin as [->|Hin].
  - destruct (P a) eqn:Pa; simpl.
    + split; [done | intros _; by apply elem_of_cons; left].
    + split; [intros Hf; by apply Hsub in Hf | done].
  - specialize (IH Hl Hin). destruct (P a) eqn:Pa; simpl; [|done].
    rewrite elem_of_cons, IH. split; [intros [Heq|?]; [|done] | by right].
    exfalso. apply Ha. rewrite <- Heq. by apply Hmap.
Qed.

Lemma NoDup_map_finer {A B C} (f : A → B) (g : A → C) (l : list A) :
  (∀ x y, g x = g y → f x = f y) → NoDup (map f l) → NoDup (map g l).
Proof.
  intros Hfiner. induction l as [|a l IH]; simpl; [intros _; apply NoDup_nil_2|].
  intros [Ha Hl]%NoDup_cons. apply NoDup_cons. split; [|by apply IH].
  intros (y & Hg & Hy)%list_elem_of_fmap. apply Ha.
  apply list_elem_of_fmap. exists y. split; [by apply Hfiner | done].
Qed.

Lemma bucket_keys ty bucket sd :
  Spec.bucket_ok ty bucket → sd ∈ PyDict.values bucket →
  signal_registry.signal_type sd = ty.
Proof.
  intros [_ Hall] ([k v] & -> & Hin)%list_elem_of_fmap.
  eapply Forall_forall in Hall; [|exact Hin]. by destruct Hall.
Qed.

(** In a registry filled through [add], name and type identify a signal. *)
Lemma get_all_keys_unique registry :
  Spec.bucketed registry → NoDup (map Spec.signal_key (get_all registry)).
Proof.
  intros (Hm & Ho & Ha). unfold get_all. rewrite !map_app.
  assert (Hfiner : ∀ x y, Spec.signal_key x = Spec.signal_key y → name x = name y)
    by (by intros x y [= -> _]).
  assert (Hkey : ∀ ty bucket k, Spec.bucket_ok ty bucket →
            k ∈ map Spec.signal_key (PyDict.values bucket) → snd k = ty).
  { intros ty bucket k Hb (sd & -> & Hin)%list_elem_of_fmap. simpl.
    by eapply bucket_keys. }
  apply NoDup_app. split_and!.
  - eapply NoDup_map_finer; eauto using bucket_names_unique.
  - intros k Hk1 [Hk2|Hk2]%elem_of_app.
    + apply (Hkey _ _ _ Hm) in Hk1. apply (Hkey _ _ _ Ho) in Hk2. congruence.
    + apply (Hkey _ _ _ Hm) in Hk1. apply (Hkey _ _ _ Ha) in Hk2. congruence.
  - apply NoDup_app. split_and!.
    + eapply NoDup_map_finer; eauto using bucket_names_unique.
    + intros k Hk1 Hk2.
      apply (Hkey _ _ _ Ho) in Hk1. apply (Hkey _ _ _ Ha) in Hk2. congruence.
    + eapply NoDup_map_finer; eauto using bucket_names_unique.
Qed.

Lemma get_all_category registry sd :
  Spec.bucketed registry → sd ∈ get_all registry →
  Spec.is_category (signal_registry.signal_type sd).
Proof.
  intros (Hm & Ho & Ha). unfold get_all, Spec.is_category.
  rewrite !elem_of_app. intros [Hin|[Hin|Hin]]; eauto using bucket_keys.
Qed.

(** What [get_signals_for_execution_unit] returns is a selection, in
    order, of the signals of the registry. *)
Lemma matching_signals_selection eu_name signals matching result :
  matching_signals eu_name signals matching = Returns result →
  result = matching ++ List.filter (Spec.names_unit eu_name) signals.
Proof.
  revert matching. induction signals as [|sd signals IH]; simpl; intros matching.
  - intros [= <-]. by rewrite app_nil_r.
  - unfold Spec.names_unit at 1.
    destruct (py_str_in eu_name _) as [[|]|e]; [| |done].
    + intros ->%IH. by rewrite <- app_assoc.
    + apply IH.
Qed.

Lemma triggered_spec success signal_def condition q :
  condition_of signal_def = VStr condition →
  Spec.qualifies condition success = Some q →
  Spec.triggered success signal_def = q.
Proof.
  unfold Spec.triggered, Spec.qualifies. intros -> Hq. simpl.
  destruct (String.eqb_spec condition "always") as [->|_];
    [by injection Hq as <-|].
  destruct (String.eqb_spec condition "on_success") as [->|_];
    [injection Hq as <-; by destruct success|].
  destruct (String.eqb_spec condition "on_failure") as [->|_];
    [injection Hq as <-; by destruct success|].
  done.
Qed.

(** The loop emits once for each triggered signal, in order, and for no
    other. *)
Lemma emit_each_results signals intent_id tenant_context execution_result success :
  (∀ sd, sd ∈ signals → Spec.is_category (signal_registry.signal_type sd)) →
  (∀ sd, sd ∈ signals → signal_registry.signal_type sd = "advisor" →
         Spec.consumer_named sd) →
  ∀ results self, ∃ results' self',
    emit_each signals intent_id tenant_context execution_result success results self
    = (Returns results', self')
    ∧ map Spec.emission_key results'
      = map Spec.emission_key results
          ++ map Spec.signal_key (List.filter (Spec.triggered success) signals).
Proof.
  induction signals as [|sd signals IH]; intros Hcat Hcons results self.
  - exists results, self. simpl. by rewrite app_nil_r.
  - assert (IH' := IH (fun x Hx => Hcat x (list_elem_of_further _ _ _ Hx))
                      (fun x Hx => Hcons x (list_elem_of_further _ _ _ Hx))).
    clear IH. simpl. unfold Spec.triggered at 1.
    destruct (py_eq_str (condition_of sd) "on_success" && negb success);
      simpl; [apply IH'|].
    destruct (py_eq_str (condition_of sd) "on_failure" && success);
      simpl; [apply IH'|].
    assert (Hstep : ∀ result self1,
              Spec.emission_key result = Spec.signal_key sd →
              ∃ results' self',
                emit_each signals intent_id tenant_context execution_result success
                  (results ++ [result]) self1 = (Returns results', self')
                ∧ map Spec.emission_key results'
                  = map Spec.emission_key results
                      ++ Spec.signal_key sd
                           :: map Spec.signal_key
                                (List.filter (Spec.triggered success) signals)).
    { intros result self1 Hkey.
      destruct (IH' (results ++ [result]) self1) as (results' & self' & -> & Hmap).
      exists results', self'. split; [done|].
      rewrite Hmap, map_app, <- app_assoc. simpl. by rewrite Hkey. }
    assert (Hkey : ∀ kind result,
              signal_registry.signal_type sd = kind →
              signal_name result = name sd →
              signal_emitter.signal_type result = kind →
              Spec.emission_key result = Spec.signal_key sd).
    { intros kind result Hk Hn Ht.
      unfold Spec.emission_key, Spec.signal_key. by rewrite Hn, Ht, Hk. }
    destruct (Hcat sd ltac:(by apply elem_of_cons; left)) as [Hty|[Hty|Hty]];
      rewrite Hty; simpl.
    + destruct (emit_metric (name sd) intent_id tenant_context execution_result self)
        as [result self1] eqn:E.
      apply Hstep. pose proof (emit_signal_tags "metric"
        (fun payload now => spine_emit_metric (name sd) payload tenant_context now)
        (name sd) intent_id execution_result self) as [Hn Ht].
      unfold emit_metric in E. rewrite E in Hn, Ht. simpl in Hn, Ht.
      by eapply Hkey.
    + destruct (emit_outcome (name sd) intent_id tenant_context execution_result self)
        as [result self1] eqn:E.
      apply Hstep. pose proof (emit_signal_tags "outcome"
        (fun payload now => spine_emit_outcome (name sd) payload tenant_context now)
        (name sd) intent_id execution_result self) as [Hn Ht].
      unfold emit_outcome in E. rewrite E in Hn, Ht. simpl in Hn, Ht.
      by eapply Hkey.
    + specialize (Hcons sd ltac:(by apply elem_of_cons; left) Hty).
      unfold Spec.consumer_named in Hcons. unfold first_consumer.
      destruct (intended_consumers sd) as [|c consumers].
      * destruct (emit_advisor (name sd) intent_id tenant_context execution_result
                    "unknown" self) as [result self1] eqn:E.
        apply Hstep. pose proof (emit_signal_tags "advisor"
          (fun payload now =>
             spine_emit_advisor (name sd) payload tenant_context "unknown" now)
          (name sd) intent_id execution_result self) as [Hn Ht].
        unfold emit_advisor in E. rewrite E in Hn, Ht. simpl in Hn, Ht.
        by eapply Hkey.
      * destruct Hcons as [consumer ->].
        destruct (emit_advisor (name sd) intent_id tenant_context execution_result
                    consumer self) as [result self1] eqn:E.
        apply Hstep. pose proof (emit_signal_tags "advisor"
          (fun payload now =>
             spine_emit_advisor (name sd) payload tenant_context consumer now)
          (name sd) intent_id execution_result self) as [Hn Ht].
        unfold emit_advisor in E. rewrite E in Hn, Ht. simpl in Hn, Ht.
        by eapply Hkey.
Qed.

Lemma NoDup_map_filter {A B} (f : A → B) (P : A → bool) (l : list A) :
  NoDup (map f l) → NoDup (map f (List.filter P l)).
Proof.
  induction l as [|a l IH]; simpl; [done|].
  intros [Ha Hl]%NoDup_cons. destruct (P a); simpl; [|by apply IH].
  apply NoDup_cons. split; [|by apply IH].
  intros (y & Hy & Hin)%list_elem_of_fmap. apply Ha.
  apply list_elem_of_fmap. exists y. split; [done|].
  apply list_elem_of_In. apply list_elem_of_In, List.filter_In in Hin. tauto.
Qed.

(** X29: for the signals [get_signals_for_execution_unit] returns for a
    unit, [emit_for_execution_unit] returns one [EmissionResult] for each
    signal that gets past the trigger guards, in order, and none for the
    others; for a signal whose condition is [always], [on_success] or
    [on_failure], a result for it is present exactly when the condition
    qualifies for the success flag.  The registry is one filled through
    [add], and the first intended consumer of an advisor signal names its
    consumer, as the signal schema has it. *)
Theorem emit_for_execution_unit_trigger
    execution_unit_name intent_id tenant_context execution_result success self signals :
  Spec.reachable (_registry (_signal_registry self)) →
  fst (get_signals_for_execution_unit execution_unit_name (_signal_registry self))
    = Returns signals →
  (∀ sd, sd ∈ signals → signal_registry.signal_type sd = "advisor" →
         Spec.consumer_named sd) →
  ∃ results,
    fst (emit_for_execution_unit execution_unit_name intent_id tenant_context
           execution_result success self) = Returns results
    ∧ map Spec.emission_key results
      = map Spec.signal_key (List.filter (Spec.triggered success) signals)
    ∧ ∀ sd condition q,
        sd ∈ signals →
        condition_of sd = VStr condition →
        Spec.qualifies condition success = Some q →
        (Spec.signal_key sd ∈ map Spec.emission_key results ↔ q = true).
Proof.
  intros Hreach Hsignals Hcons.
  pose proof (reachable_bucketed _ (get_registry_reachable _ Hreach)) as Hb.
  unfold emit_for_execution_unit.
  unfold get_signals_for_execution_unit in Hsignals |- *.
  destruct (get_registry (_signal_registry self)) as [registry fsr] eqn:Hreg.
  simpl in Hsignals, Hb. rewrite Hsignals.
  apply matching_signals_selection in Hsignals. simpl in Hsignals.
  assert (Hsub : ∀ sd, sd ∈ signals → sd ∈ get_all registry).
  { intros sd Hin. rewrite Hsignals in Hin.
    apply list_elem_of_In, List.filter_In in Hin as [Hin _].
    by apply list_elem_of_In. }
  assert (Hnodup : NoDup (map Spec.signal_key signals)).
  { rewrite Hsignals. by apply NoDup_map_filter, get_all_keys_unique. }
  destruct (emit_each_results signals intent_id tenant_context execution_result success
              (fun sd Hin => get_all_category _ _ Hb (Hsub sd Hin)) Hcons []
              {| _spine := _spine self; _signal_registry := fsr;
                 _emissions := _emissions self; runtime := runtime self |})
    as (results & self' & -> & Hmap).
  simpl in Hmap. exists results. split_and!; [done..|].
  intros sd condition q Hin Hcond Hq. rewrite Hmap.
  rewrite (key_in_filter _ _ _ _ Hnodup Hin).
  by rewrite (triggered_spec _ _ _ _ Hcond Hq).
Qed.

Lemma emit_for_execution_unit_trigger_witness :
  ∃ results,
    fst (emit_for_execution_unit "DataProfiler" "intent-1" [] [] true
           Samples.profiler_emitter) = Returns results
    ∧ map Spec.emission_key results
      = [("ProfileDuration", "metric"); ("ProfileOutcome", "outcome")].
Proof.
  destruct (emit_for_execution_unit_trigger "DataProfiler" "intent-1" [] [] true
              Samples.profiler_emitter Samples.profiler_signals)
    as (results & Hres & Hmap & _).
  - apply Spec.reachable_new.
  - vm_compute. reflexivity.
  - intros sd Hin Hty. unfold Samples.profiler_signals in Hin.
    repeat (apply elem_of_cons in Hin as [->|Hin]); try discriminate.
    + vm_compute. eauto.
    + by apply elem_of_nil in Hin.
  - exists results. split; [exact Hres|]. rewrite Hmap. reflexivity.
Defined.

(** C5 at the failing input: the registry holds, for the unit
    DataProfiler, a metric and an advisor, both with condition [always]; the
    advisor's first intended consumer is [{"team": "scheduler"}], without the
    key [consumer].  Both signals qualify, for either success flag, yet
    [emit_for_execution_unit] raises [KeyError] and returns no
    [EmissionResult] at all, although the metric has been emitted and
    recorded. *)
Theorem emit_for_execution_unit_loses_qualifying_results :
  let duration :=
    Samples.signal_def "ProfileDuration" "metric" "always" ["DataProfiler"] [] in
  let advice :=
    Samples.signal_def "RetryAdvice" "advisor" "always" ["DataProfiler"]
      [[("team", "scheduler")]] in
  let registry :=
    {| feedback_signals := None;
       _registry := add advice (add duration SignalRegistry_new);
       _loaded := true; signal_registry.stdout := [] |} in
  let self :=
    FeedbackSignalEmitter_new (Some Spec.accepting_spine) registry Spec.sample_runtime in
  let run success :=
    emit_for_execution_unit "DataProfiler" "intent-1" [] [] success self in
  fst (get_signals_for_execution_unit "DataProfiler" registry)
  = Returns [duration; advice]
  ∧ Spec.qualifies "always" true = Some true
  ∧ Spec.qualifies "always" false = Some true
  ∧ fst (run true) = Raises {| exc_class := "KeyError"; exc_str := "'consumer'" |}
  ∧ fst (run false) = Raises {| exc_class := "KeyError"; exc_str := "'consumer'" |}
  ∧ map Spec.emission_key (get_emissions (snd (run true)))
    = [("ProfileDuration", "metric")].
Proof. vm_compute. done. Qed.

End EmitterFacts.

(** ** Capability registry loader *)

Section RegistryLoaderFacts.
Import registry_loader.
Implicit Types (self : RegistryCardLoader).

(** The only exception [_load_card_from_file] raises is the one the
    [except] clause of [discover_cards] catches. *)
Lemma load_card_raises_decode_error content e :
  _load_card_from_file content = Raises e →
  is_instance e ["JSONDecodeError"; "KeyError"] = true.
Proof. destruct content; simpl; [|done]. by intros [= <-]. Qed.

(** A file that holds a JSON object always yields a card, whatever
    members it lacks: no check stands between the file and the card. *)
Lemma load_card_from_object_returns data :
  ∃ card, _load_card_from_file (JsonObject data) = Returns card.
Proof. simpl. eauto. Qed.

(** [discover_cards] returns one card per file that holds a JSON object. *)
Lemma discover_files_count files cards out :
  length (fst (discover_files files cards out))
  = length cards
    + length (List.filter (fun f => match snd f with
                                    | JsonObject _ => true
                                    | MalformedJson _ => false
                                    end) files).
Proof.
  revert cards out. induction files as [|[path [msg|data]] files IH];
    intros cards out; simpl.
  - lia.
  - apply IH.
  - rewrite IH, length_app. simpl. lia.
Qed.

(** C2 at the failing input: of a malformed file, a complete card and a
    card lacking [capability.type], [discover_cards] skips only the
    malformed one; the card without a type is returned, with the empty
    string as its [capability_type], and no warning is printed for it. *)
Theorem discover_cards_keeps_card_without_type :
  let self := Samples.card_loader (Returns true) in
  let cards := fst (discover_cards self) in
  let self' := snd (discover_cards self) in
  map name cards = ["DataWriter"; "DataProfiler"]
  ∧ map capability_type cards = ["data-writing"; ""]
  ∧ stdout self'
    = ["Warning: Failed to load card registry_cards/broken.json: "
         +:+ "Expecting value: line 1 column 1 (char 0)"].
Proof. vm_compute. done. Qed.

(** *** Teardown *)

Lemma load_each_wf cards results self :
  PyDict.wf (_registered_cards self) →
  PyDict.wf (_registered_cards (snd (load_each cards results self))).
Proof.
  revert results self. induction cards as [|card cards IH]; intros results self; [done|].
  intros Hwf. simpl.
  destruct (register_capability _ _ _); apply IH; simpl; [by apply wf_set | done].
Qed.

Lemma load_all_wf self :
  PyDict.wf (_registered_cards self) →
  PyDict.wf (_registered_cards (snd (load_all self))).
Proof.
  intros Hwf. unfold load_all, discover_cards.
  destruct (registry_cards self) as [files|]; [|by apply load_each_wf].
  destruct (discover_files files [] (stdout self)). by apply load_each_wf.
Qed.

Lemma unregister_flags_length card_ids client :
  length (Spec.unregister_flags card_ids client) = length card_ids.
Proof.
  revert client. induction card_ids as [|card_id rest IH]; intros client; simpl; [done|].
  by rewrite IH.
Qed.

(** The loop of [unload_all], started on a table [kept ++ snapshot] with
    [snapshot] still to process: each entry is reported with the flag of
    its unregistration and dropped from the table exactly when that flag
    is [True]. *)
Lemma unload_each_spec snapshot kept results self :
  _registered_cards self = kept ++ snapshot →
  PyDict.wf (kept ++ snapshot) →
  let flags := Spec.unregister_flags (PyDict.values snapshot) (_registry_client self) in
  fst (unload_each snapshot results self)
  = PyDict.update results (combine (PyDict.keys snapshot) flags)
  ∧ _registered_cards (snd (unload_each snapshot results self))
    = kept ++ Spec.flagged_false snapshot flags.
Proof.
  revert kept results self.
  induction snapshot as [|[card_name card_id] snapshot IH]; intros kept results self.
  - intros Hcards _. simpl. unfold Spec.flagged_false. simpl.
    by rewrite Hcards.
  - intros Hcards Hwf. simpl.
    destruct (unregister_capability (_registry_client self)
                (registry_calls (_registry_client self)) card_id)
      as [[|]|e] eqn:Hcall; simpl.
    + assert (Hfresh : card_name ∉ PyDict.keys kept).
      { unfold PyDict.wf, PyDict.keys in *. rewrite map_app in Hwf.
        apply NoDup_app in Hwf as (_ & Hdisj & _).
        intros Hin. apply (Hdisj _ Hin). by apply elem_of_cons; left. }
      unfold PyDict.del. rewrite Hcards, contains_middle, remove_middle by done.
      apply IH; simpl; [done|].
      unfold PyDict.wf, PyDict.keys in *. rewrite map_app in *. simpl in Hwf.
      apply NoDup_app in Hwf as (Hk & Hdisj & [_ Hs]%NoDup_cons).
      apply NoDup_app. split_and!; [done| |done].
      intros x Hx Hin. apply (Hdisj x Hx). by apply elem_of_cons; right.
    + change (Spec.flagged_false ((card_name, card_id) :: snapshot) (false :: ?fl))
        with ((card_name, card_id) :: Spec.flagged_false snapshot fl).
      rewrite (cons_middle (card_name, card_id) kept),
        (app_assoc kept [(card_name, card_id)]).
      apply IH; simpl; rewrite <- app_assoc; by simpl.
    + change (Spec.flagged_false ((card_name, card_id) :: snapshot) (false :: ?fl))
        with ((card_name, card_id) :: Spec.flagged_false snapshot fl).
      rewrite (cons_middle (card_name, card_id) kept),
        (app_assoc kept [(card_name, card_id)]).
      apply IH; simpl; rewrite <- app_assoc; by simpl.
Qed.

Lemma flagged_false_nil {A} (entries : list A) flags :
  length flags = length entries →
  (Spec.flagged_false entries flags = [] ↔ Forall (eq true) flags).
Proof.
  unfold Spec.flagged_false. revert flags.
  induction entries as [|x entries IH]; intros [|b flags]; simpl; try done.
  intros [= Hlen]. rewrite Forall_cons. destruct b; simpl.
  - rewrite (IH _ Hlen). tauto.
  - split; [done | by intros [? _]].
Qed.

Lemma keys_combine {V} (ks : list string) (vs : list V) :
  length vs = length ks → PyDict.keys (combine ks vs) = ks.
Proof.
  revert vs. induction ks as [|k ks IH]; intros [|v vs]; simpl; try done.
  intros [= Hlen]. by rewrite IH.
Qed.

Lemma load_each_unregister cards results self :
  unregister_capability (_registry_client (snd (load_each cards results self)))
  = unregister_capability (_registry_client self).
Proof.
  revert results self. induction cards as [|card cards IH]; intros results self; [done|].
  simpl. destruct (register_capability _ _ _); by rewrite IH.
Qed.

Lemma load_all_unregister self :
  unregister_capability (_registry_client (snd (load_all self)))
  = unregister_capability (_registry_client self).
Proof.
  unfold load_all, discover_cards.
  destruct (registry_cards self) as [files|]; [|by rewrite load_each_unregister].
  destruct (discover_files files [] (stdout self)). by rewrite load_each_unregister.
Qed.

Lemma unregister_flags_all_true card_ids client :
  (∀ calls card_id, unregister_capability client calls card_id = Returns true) →
  Forall (eq true) (Spec.unregister_flags card_ids client).
Proof.
  revert client. induction card_ids as [|card_id rest IH]; intros client Hall; simpl.
  - apply Forall_nil_2.
  - apply Forall_cons. split; [by rewrite Hall | by apply IH].
Qed.

(** C3 (as the code has it): after [load_all] and [unload_all], whatever
    the asset registry did, [unload_all] has reported every card that was
    registered with the flag of its unregistration (an exception counting
    as [False]), and the table of registered cards holds exactly the cards
    whose flag is [False]; so [get_card_count] is 0 exactly when every
    unregistration returned [True], in particular for a registry that
    always does. *)
Theorem unload_all_keeps_failed_cards self :
  PyDict.wf (_registered_cards self) →
  let loaded := snd (load_all self) in
  let results := fst (unload_all loaded) in
  let unloaded := snd (unload_all loaded) in
  let flags :=
    Spec.unregister_flags (PyDict.values (_registered_cards loaded))
      (_registry_client loaded) in
  results = combine (PyDict.keys (_registered_cards loaded)) flags
  ∧ _registered_cards unloaded = Spec.flagged_false (_registered_cards loaded) flags
  ∧ (get_card_count unloaded = 0 ↔ Forall (eq true) flags)
  ∧ ((∀ calls card_id,
        unregister_capability (_registry_client self) calls card_id = Returns true) →
     get_card_count unloaded = 0).
Proof.
  intros Hwf loaded results unloaded flags.
  pose proof (load_all_wf _ Hwf) as Hwf'. fold loaded in Hwf'.
  destruct (unload_each_spec (_registered_cards loaded) [] [] loaded eq_refl Hwf')
    as [Hres Hcards].
  fold flags in Hres, Hcards. simpl in Hcards.
  assert (Hlen : length flags = length (_registered_cards loaded)).
  { unfold flags. rewrite unregister_flags_length.
    unfold PyDict.values. by rewrite length_map. }
  assert (Hzero : get_card_count unloaded = 0 ↔ Forall (eq true) flags).
  { unfold get_card_count, PyDict.len, unloaded, unload_all, PyDict.items.
    rewrite Hcards, <- (flagged_false_nil _ _ Hlen).
    by destruct (Spec.flagged_false _ _). }
  split_and!; [| exact Hcards | exact Hzero |].
  - unfold results, unload_all, PyDict.items. rewrite Hres.
    rewrite update_fresh; [done|]. simpl. rewrite keys_combine; [exact Hwf'|].
    unfold PyDict.keys. by rewrite length_map.
  - intros Halways. apply Hzero. apply unregister_flags_all_true.
    unfold loaded. by rewrite load_all_unregister.
Qed.

Lemma unload_all_keeps_failed_cards_witness :
  PyDict.wf (_registered_cards (Samples.card_loader (Returns true)))
  ∧ get_card_count
      (snd (unload_all (snd (load_all (Samples.card_loader (Returns true)))))) = 0.
Proof.
  assert (Hwf : PyDict.wf (_registered_cards (Samples.card_loader (Returns true))))
    by apply NoDup_nil_2.
  split; [exact Hwf|].
  apply (unload_all_keeps_failed_cards (Samples.card_loader (Returns true)) Hwf).
  intros calls card_id. reflexivity.
Defined.

(** C3 as stated fails: with an asset registry that registers every card
    and answers [False] to every unregistration, [load_all] followed by
    [unload_all] leaves both cards in the table. *)
Lemma unload_all_leaves_cards_when_unregistration_fails :
  let self := Samples.card_loader (Returns false) in
  get_card_count (snd (load_all self)) = 2
  ∧ get_card_count (snd (unload_all (snd (load_all self)))) ≠ 0.
Proof. vm_compute. split; [done | discriminate]. Qed.

End RegistryLoaderFacts.


(** * Further properties of the code *)

(** ** Signal registry: lookups, types and loading *)

Section SignalRegistryCoverage.
Import signal_registry.
Implicit Types (registry : SignalRegistry) (signal : SignalDefinition).

Lemma get_elem_of {V} n (d : dict V) v : PyDict.get n d = Some v → (n, v) ∈ d.
Proof.
  induction d as [|[k w] d IH]; simpl; [done|].
  destruct (String.eqb_spec n k) as [->|?].
  - intros [= ->]. by apply elem_of_cons; left.
  - intros Hget. apply elem_of_cons; right. by apply IH.
Qed.

Lemma filter_bucket ty' ty bucket :
  Spec.bucket_ok ty' bucket →
  List.filter (fun sd => String.eqb (signal_type sd) ty) (PyDict.values bucket)
  = if String.eqb ty' ty then PyDict.values bucket else [].
Proof.
  intros [_ Hall]. induction bucket as [|[k sd] bucket IH]; simpl.
  - by destruct (String.eqb ty' ty).
  - apply Forall_cons in Hall as [[_ Hty] Hall]. simpl in Hty.
    rewrite Hty, (IH Hall). by destruct (String.eqb ty' ty).
Qed.

(** X1: in a registry filled through [add], [get_by_type] returns exactly
    the definitions of [get_all] that carry the requested type, in the same
    order; for a type other than metric, outcome and advisor that is the
    empty list. *)
Theorem get_by_type_selects registry ty :
  Spec.reachable registry →
  get_by_type ty registry
  = List.filter (fun sd => String.eqb (signal_type sd) ty) (get_all registry).
Proof.
  intros (Hm & Ho & Ha)%reachable_bucketed.
  unfold get_by_type, get_all. rewrite !List.filter_app.
  rewrite (filter_bucket _ ty _ Hm), (filter_bucket _ ty _ Ho), (filter_bucket _ ty _ Ha).
  rewrite !(String.eqb_sym _ ty).
  destruct (String.eqb_spec ty "metric") as [->|_]; [by rewrite app_nil_r|].
  destruct (String.eqb_spec ty "outcome") as [->|_]; [by rewrite app_nil_r|].
  by destruct (String.eqb_spec ty "advisor") as [->|_].
Qed.

Lemma get_by_type_selects_witness :
  let registry :=
    add (Samples.signal_def "ProfileOutcome" "outcome" "on_success" ["DataProfiler"] [])
      (add (Samples.signal_def "ProfileDuration" "metric" "always" ["DataProfiler"] [])
         SignalRegistry_new) in
  map name (get_by_type "outcome" registry) = ["ProfileOutcome"]
  ∧ get_by_type "alert" registry = [].
Proof.
  intros registry.
  assert (Hreach : Spec.reachable registry)
    by (do 2 apply Spec.reachable_add; apply Spec.reachable_new).
  split.
  - rewrite (get_by_type_selects registry "outcome" Hreach). reflexivity.
  - rewrite (get_by_type_selects registry "alert" Hreach). reflexivity.
Defined.

Lemma get_add_ne signal registry n :
  n ≠ name signal → get n (add signal registry) = get n registry.
Proof.
  intros Hne. unfold add, get.
  repeat case_match; simpl in *; rewrite ?get_set_ne in * by done; congruence.
Qed.

(** X2: [add] touches one name only: the lookup of every other name
    answers as before. *)
Theorem add_keeps_other_names signal registry n :
  n ≠ name signal → get n (add signal registry) = get n registry.
Proof. apply get_add_ne. Qed.

Lemma add_keeps_other_names_witness :
  let old := Samples.signal_def "ProfileDuration" "metric" "always" ["DataProfiler"] [] in
  let new := Samples.signal_def "ProfileOutcome" "outcome" "on_success" ["DataProfiler"] [] in
  get "ProfileDuration" (add new (add old SignalRegistry_new)) = Some old.
Proof.
  intros old new.
  rewrite (add_keeps_other_names new (add old SignalRegistry_new) "ProfileDuration").
  - reflexivity.
  - discriminate.
Defined.

Lemma get_add_is_Some signal registry n :
  is_Some (get n registry) → is_Some (get n (add signal registry)).
Proof.
  destruct (decide (n = name signal)) as [->|Hne]; [|by rewrite get_add_ne].
  unfold add, get. intros Hsome.
  repeat case_match; simpl in *; rewrite ?get_set_eq in *; eauto; congruence.
Qed.

Lemma get_add_category signal registry :
  Spec.is_category (signal_type signal) → is_Some (get (name signal) (add signal registry)).
Proof.
  unfold add, get. intros [Hty|[Hty|Hty]]; rewrite Hty; simpl;
    repeat case_match; simpl in *; rewrite ?get_set_eq in *; eauto; congruence.
Qed.

Lemma get_named registry n sd :
  Spec.bucketed registry → get n registry = Some sd → name sd = n.
Proof.
  intros (Hm & Ho & Ha). unfold get.
  assert (Hb : ∀ ty bucket, Spec.bucket_ok ty bucket →
                 PyDict.get n bucket = Some sd → name sd = n).
  { intros ty bucket [_ Hall] Hin%get_elem_of.
    eapply Forall_forall in Hall; [|exact Hin]. by destruct Hall. }
  repeat case_match; intros Heq; simplify_eq; eauto.
Qed.

Lemma load_files_app files1 files2 registry out :
  load_files (files1 ++ files2) registry out
  = load_files files2 (fst (load_files files1 registry out))
      (snd (load_files files1 registry out)).
Proof.
  revert registry out. induction files1 as [|[path content] files1 IH];
    intros registry out; simpl; [done|].
  destruct (_load_signal_from_file content); apply IH.
Qed.

Lemma load_files_keeps_names files registry out n :
  is_Some (get n registry) → is_Some (get n (fst (load_files files registry out))).
Proof.
  revert registry out. induction files as [|[path content] files IH];
    intros registry out Hsome; simpl; [done|].
  destruct (_load_signal_from_file content); apply IH; [|done].
  by apply get_add_is_Some.
Qed.

(** X3: a signal file whose [signal_type] is none of metric, outcome and
    advisor is dropped in silence by [load]: the registry and the printed
    warnings are those of the directory without that file. *)
Theorem load_drops_signal_of_unknown_type self before after path doc sd :
  feedback_signals self = Some (before ++ (path, JsonObject doc) :: after) →
  _load_signal_from_file (JsonObject doc) = Returns sd →
  ¬ Spec.is_category (signal_type sd) →
  let without :=
    {| feedback_signals := Some (before ++ after); _registry := _registry self;
       _loaded := _loaded self; stdout := stdout self |} in
  fst (load self) = fst (load without)
  ∧ stdout (snd (load self)) = stdout (snd (load without)).
Proof.
  intros Hdir Hload Hcat without. unfold load. rewrite Hdir. simpl.
  rewrite !load_files_app. simpl in *. injection Hload as <-.
  rewrite add_other_type_is_dropped by done.
  by repeat (destruct (load_files _ _ _); simpl).
Qed.

Lemma load_drops_signal_of_unknown_type_witness :
  let alert := Samples.signal_doc "DiskAlert" "alert" "always" ["DataWriter"] [] in
  let self :=
    FeedbackSignalRegistry_new
      (Some (Samples.feedback_signals_dir
               ++ [("feedback_signals/zz_alert.json", alert)])) in
  fst (load self) = fst (load (FeedbackSignalRegistry_new (Some Samples.feedback_signals_dir))).
Proof.
  intros alert self.
  destruct (load_drops_signal_of_unknown_type self Samples.feedback_signals_dir []
              "feedback_signals/zz_alert.json"
              {| doc_metadata :=
                   Some {| md_name := Some "DiskAlert"; md_version := Some "1.0.0";
                           md_domain := Some "data-fabric" |};
                 doc_signal_type := Some "alert"; doc_description := Some "";
                 doc_emission_trigger :=
                   Some [("condition", VStr "always");
                         ("execution_units", VList [VStr "DataWriter"])];
                 doc_schema := Some []; doc_intended_consumers := Some [] |}
              (Samples.signal_def "DiskAlert" "alert" "always" ["DataWriter"] []))
    as [Hreg _].
  - reflexivity.
  - reflexivity.
  - intros [H|[H|H]]; discriminate H.
  - rewrite Hreg. by rewrite app_nil_r.
Defined.

(** X4: when the lazy load triggered by [get_signal] completes (the
    registry object is marked loaded afterwards), every signal file of the
    directory that holds a JSON object with one of the three signal types is
    found by that [get_signal] under its name: later files may overwrite
    it, none removes the name. *)
Theorem load_makes_signals_findable self files path doc sd0 :
  feedback_signals self = Some files →
  _loaded self = false →
  Spec.reachable (_registry self) →
  (path, JsonObject doc) ∈ files →
  _load_signal_from_file (JsonObject doc) = Returns sd0 →
  Spec.is_category (signal_type sd0) →
  _loaded (snd (get_signal (name sd0) self)) = true →
  ∃ sd, fst (get_signal (name sd0) self) = Some sd ∧ name sd = name sd0.
Proof.
  intros Hdir Hloaded Hreach Hin Hload Hcat _.
  pose proof (reachable_bucketed _ (get_registry_reachable _ Hreach)) as Hb.
  rewrite get_signal_spec. simpl.
  assert (Hsome : is_Some (get (name sd0) (fst (get_registry self)))).
  { unfold get_registry, load. rewrite Hloaded, Hdir. simpl.
    apply list_elem_of_split in Hin as (before & after & ->).
    rewrite load_files_app.
    destruct (load_files before (_registry self) (stdout self)) as [r1 o1] eqn:E1.
    simpl. simpl in Hload. injection Hload as Hsd. rewrite Hsd.
    pose proof (load_files_keeps_names after (add sd0 r1) o1 (name sd0)
                  (get_add_category sd0 r1 Hcat)) as Hkeep.
    by destruct (load_files after (add sd0 r1) o1). }
  destruct Hsome as [sd Hsd]. exists sd. split; [done|]. by eapply get_named.
Qed.

Lemma load_makes_signals_findable_witness :
  ∃ sd, fst (get_signal "ProfileFailed"
               (FeedbackSignalRegistry_new (Some Samples.feedback_signals_dir))) = Some sd
        ∧ name sd = "ProfileFailed".
Proof.
  pose proof (fun doc =>
                load_makes_signals_findable
                  (FeedbackSignalRegistry_new (Some Samples.feedback_signals_dir))
                  Samples.feedback_signals_dir "feedback_signals/profile_failed.json" doc
                  (Samples.signal_def "ProfileFailed" "advisor" "on_failure"
                     ["DataProfiler"] [[("consumer", "scheduler")]])
                  eq_refl eq_refl Spec.reachable_new) as Hfound.
  eapply Hfound.
  - unfold Samples.feedback_signals_dir. do 2 (apply elem_of_cons; right).
    apply elem_of_cons; left. reflexivity.
  - reflexivity.
  - right; right. reflexivity.
  - reflexivity.
Defined.

(** X5: once a load has completed (the registry object is marked loaded),
    or when the signal directory does not exist, [get_signal] is a plain
    lookup in the registry the object holds: it reads no file again, prints
    no warning and leaves the object as it is, so any number of lookups
    answer from the same registry. *)
Theorem get_signal_reads_files_once self n :
  _loaded self = true ∨ feedback_signals self = None →
  get_signal n self = (get n (_registry self), self)
  ∧ ∀ m, get_signal m (snd (get_signal n self)) = (get m (_registry self), self).
Proof.
  intros Hdone.
  assert (Hone : ∀ k, get_signal k self = (get k (_registry self), self)).
  { intros k. unfold get_signal, get_registry, load.
    destruct Hdone as [->| ->]; [done|]. by destruct (_loaded self). }
  split; [apply Hone|]. intros m. by rewrite (Hone n).
Qed.

Lemma get_signal_reads_files_once_witness :
  let loaded :=
    snd (get_signal "ProfileDuration"
           (FeedbackSignalRegistry_new
              (Some (("feedback_signals/aa_broken.json", MalformedJson "Expecting value")
                       :: Samples.feedback_signals_dir)))) in
  _loaded loaded = true
  ∧ length (stdout loaded) = 1
  ∧ snd (get_signal "ProfileOutcome" (snd (get_signal "ProfileFailed" loaded))) = loaded.
Proof.
  intros loaded.
  assert (Hloaded : _loaded loaded = true) by reflexivity.
  split_and!; [exact Hloaded | reflexivity |].
  destruct (get_signal_reads_files_once loaded "ProfileFailed" (or_introl Hloaded))
    as [_ Hagain].
  by rewrite Hagain.
Defined.

Lemma names_unit_listed eu_name signal :
  Spec.names_unit eu_name signal = true →
  PyDict.get "execution_units" (emission_trigger signal) ≠ None.
Proof.
  unfold Spec.names_unit. intros Hnames Hnone. rewrite Hnone in Hnames. done.
Qed.

(** X6: when [get_signals_for_execution_unit] returns, its result is the
    selection, in registry order (metrics, then outcomes, then advisors), of
    exactly the signals whose trigger lists the unit; a signal whose trigger
    has no [execution_units] is never part of it. *)
Theorem get_signals_for_execution_unit_selects eu_name self signals :
  fst (get_signals_for_execution_unit eu_name self) = Returns signals →
  signals = List.filter (Spec.names_unit eu_name) (get_all (fst (get_registry self)))
  ∧ ∀ sd, sd ∈ signals →
          PyDict.get "execution_units" (emission_trigger sd) ≠ None.
Proof.
  unfold get_signals_for_execution_unit.
  destruct (get_registry self) as [registry self']. simpl.
  intros Hsel%matching_signals_selection. simpl in Hsel. split; [done|].
  intros sd Hin. rewrite Hsel in Hin.
  apply list_elem_of_In, List.filter_In in Hin as [_ Hnames].
  by eapply names_unit_listed.
Qed.

Lemma get_signals_for_execution_unit_selects_witness :
  Samples.profiler_signals
  = List.filter (Spec.names_unit "DataProfiler")
      (get_all (fst (get_registry
                       (FeedbackSignalRegistry_new (Some Samples.feedback_signals_dir))))).
Proof.
  refine (proj1 (get_signals_for_execution_unit_selects "DataProfiler"
                   (FeedbackSignalRegistry_new (Some Samples.feedback_signals_dir))
                   Samples.profiler_signals _)).
  vm_compute. reflexivity.
Defined.

Lemma matching_signals_raises eu_name signals matching :
  (∃ e, matching_signals eu_name signals matching = Raises e)
  ↔ Exists (fun sd => Cover.non_iterable (Cover.trigger_units sd) = true) signals.
Proof.
  revert matching. induction signals as [|sd signals IH]; intros matching; simpl.
  - split; [by intros [e ?] | by intros ?%Exists_nil].
  - rewrite Exists_cons. fold (Cover.trigger_units sd).
    destruct (Cover.trigger_units sd) as [| | | |l|d]; simpl.
    + split; [by left | by eauto].
    + split; [by left | by eauto].
    + split; [by left | by eauto].
    + destruct (is_substring eu_name s); rewrite IH; split; try tauto;
        intros [?|?]; done.
    + destruct (existsb _ l); rewrite IH; split; try tauto; intros [?|?]; done.
    + destruct (PyDict.contains eu_name d); rewrite IH; split; try tauto;
        intros [?|?]; done.
Qed.

(** X7: one signal of the registry whose [execution_units] is [None], a
    boolean or a number makes [get_signals_for_execution_unit] raise instead
    of returning a list, for every unit name, whether or not the signal
    concerns that unit. *)
Theorem get_signals_for_execution_unit_raises eu_name self :
  Exists (fun sd => Cover.non_iterable (Cover.trigger_units sd) = true)
    (get_all (fst (get_registry self))) →
  ∃ e, fst (get_signals_for_execution_unit eu_name self) = Raises e.
Proof.
  unfold get_signals_for_execution_unit.
  destruct (get_registry self) as [registry self']. simpl.
  apply matching_signals_raises.
Qed.

Lemma get_signals_for_execution_unit_raises_witness :
  let odd :=
    {| name := "QueueDepth"; version := "1.0.0"; signal_type := "metric";
       description := "";
       emission_trigger := [("condition", VStr "always"); ("execution_units", VNone)];
       schema := []; intended_consumers := []; domain := "data-fabric" |} in
  let self :=
    {| feedback_signals := None;
       _registry :=
         add odd (add (Samples.signal_def "ProfileDuration" "metric" "always"
                         ["DataProfiler"] []) SignalRegistry_new);
       _loaded := true; stdout := [] |} in
  ∃ e, fst (get_signals_for_execution_unit "DataProfiler" self) = Raises e.
Proof.
  intros odd self.
  apply (get_signals_for_execution_unit_raises "DataProfiler" self).
  apply Exists_cons. right. apply Exists_cons. left. reflexivity.
Defined.

Lemma len_set_le {V} k (v : V) d :
  (PyDict.len (PyDict.set k v d) ≤ S (PyDict.len d))%nat.
Proof.
  unfold PyDict.len. induction d as [|[k' v'] d IH]; simpl; [lia|].
  destruct (String.eqb k k'); simpl; lia.
Qed.

Lemma get_all_length registry :
  length (get_all registry)
  = (PyDict.len (metrics registry) + PyDict.len (outcomes registry)
     + PyDict.len (advisors registry))%nat.
Proof.
  unfold get_all, PyDict.len, PyDict.values. rewrite !length_app, !length_map. lia.
Qed.

Lemma add_length signal registry :
  (length (get_all (add signal registry)) ≤ S (length (get_all registry)))%nat.
Proof.
  rewrite !get_all_length. unfold add.
  repeat case_match; simpl; try lia.
  - pose proof (len_set_le (name signal) signal (metrics registry)). lia.
  - pose proof (len_set_le (name signal) signal (outcomes registry)). lia.
  - pose proof (len_set_le (name signal) signal (advisors registry)). lia.
Qed.

Lemma load_files_length files registry out :
  (length (get_all (fst (load_files files registry out)))
   ≤ length (get_all registry) + length (List.filter Cover.is_object files))%nat.
Proof.
  revert registry out. induction files as [|[path [msg|doc]] files IH];
    intros registry out.
  - simpl. lia.
  - apply IH.
  - cbn [load_files _load_signal_from_file].
    match goal with
    | |- context [add ?sd registry] => pose proof (add_length sd registry) as Hadd
    end.
    etransitivity; [apply IH|].
    change (List.filter Cover.is_object ((path, JsonObject doc) :: files))
      with ((path, JsonObject doc) :: List.filter Cover.is_object files).
    cbn [length]. lia.
Qed.

(** X8: in the counts [get_signal_count] returns, [total] is the sum of
    [metrics], [outcomes] and [advisors]; for a registry object created on
    a signal directory it is at most the number of files that hold a JSON
    object (same-named signals of one type overwrite each other, signals of
    an unknown type are dropped, malformed files are skipped). *)
Theorem get_signal_count_total self files :
  let counts := fst (get_signal_count self) in
  let fresh := fst (get_signal_count (FeedbackSignalRegistry_new (Some files))) in
  (Cover.count "total" counts
   = Cover.count "metrics" counts + Cover.count "outcomes" counts
     + Cover.count "advisors" counts)%Z
  ∧ (Cover.count "total" fresh
     ≤ Z.of_nat (length (List.filter Cover.is_object files)))%Z.
Proof.
  unfold get_signal_count. split.
  - destruct (get_registry self) as [registry self']. simpl.
    unfold Cover.count. simpl. rewrite get_all_length. lia.
  - unfold get_registry, load. simpl.
    pose proof (load_files_length files SignalRegistry_new []) as Hlen.
    destruct (load_files files SignalRegistry_new []) as [registry out]. simpl in *.
    unfold Cover.count. simpl. lia.
Qed.

End SignalRegistryCoverage.

(** ** Emitter: the three typed operations, the sink and the audit log *)

Section EmitterCoverage.
Import signal_registry signal_emitter.
Implicit Types (self : FeedbackSignalEmitter).

Lemma unknown_as_false kind n self sd :
  get n (Spec.consulted self) = Some sd →
  signal_registry.signal_type sd = kind →
  Spec.unknown_as kind n self = false.
Proof.
  intros Hget Hty. unfold Spec.unknown_as. rewrite Hget, Hty.
  by rewrite String.eqb_refl.
Qed.

Lemma unknown_as_true kind n self :
  (∀ sd, get n (Spec.consulted self) = Some sd →
         signal_registry.signal_type sd ≠ kind) →
  Spec.unknown_as kind n self = true.
Proof.
  intros Hnot. unfold Spec.unknown_as.
  destruct (get n (Spec.consulted self)) as [sd|]; [|done].
  specialize (Hnot sd eq_refl).
  by destruct (String.eqb_spec (signal_registry.signal_type sd) kind).
Qed.

(** X9: [emit_outcome] and [emit_advisor] reject a name the registry does
    not hold with their type just as [emit_metric] does: a failed result
    with the text "Unknown outcome: " or "Unknown advisor: " and the name,
    no call on the sink, nothing appended to the audit log. *)
Theorem emit_outcome_advisor_unknown_signal
    n intent_id tenant_context values consumer self :
  ((∀ sd, get n (Spec.consulted self) = Some sd →
          signal_registry.signal_type sd ≠ "outcome") →
   let result := fst (emit_outcome n intent_id tenant_context values self) in
   let self' := snd (emit_outcome n intent_id tenant_context values self) in
   success result = false
   ∧ error result = Some ("Unknown outcome: " +:+ n)
   ∧ sink_calls self' = sink_calls self
   ∧ get_emissions self' = get_emissions self)
  ∧ ((∀ sd, get n (Spec.consulted self) = Some sd →
            signal_registry.signal_type sd ≠ "advisor") →
     let result := fst (emit_advisor n intent_id tenant_context values consumer self) in
     let self' := snd (emit_advisor n intent_id tenant_context values consumer self) in
     success result = false
     ∧ error result = Some ("Unknown advisor: " +:+ n)
     ∧ sink_calls self' = sink_calls self
     ∧ get_emissions self' = get_emissions self).
Proof.
  split; intros Hnot%unknown_as_true result self'; subst result self';
    unfold emit_outcome, emit_advisor, sink_calls, get_emissions.
  - destruct (emit_signal_unknown "outcome"
                (fun payload now => spine_emit_outcome n payload tenant_context now)
                n intent_id values self Hnot) as (-> & -> & -> & ->).
    done.
  - destruct (emit_signal_unknown "advisor"
                (fun payload now =>
                   spine_emit_advisor n payload tenant_context consumer now)
                n intent_id values self Hnot) as (-> & -> & -> & ->).
    done.
Qed.

Lemma emit_outcome_advisor_unknown_signal_witness :
  success (fst (emit_outcome "ProfileDuration" "intent-1" [] []
                  Samples.profiler_emitter)) = false
  ∧ success (fst (emit_advisor "ProfileDuration" "intent-1" [] [] "scheduler"
                    Samples.profiler_emitter)) = false.
Proof.
  destruct (emit_outcome_advisor_unknown_signal "ProfileDuration" "intent-1" [] []
              "scheduler" Samples.profiler_emitter) as [Ho Ha].
  split.
  - apply Ho. intros sd Hget. vm_compute in Hget. injection Hget as <-. discriminate.
  - apply Ha. intros sd Hget. vm_compute in Hget. injection Hget as <-. discriminate.
Defined.

(** X10: for a name the registry holds with the matching type, each of the
    three operations appends to the audit log exactly the result it
    returns, whether the sink is absent, answers or raises. *)
Theorem emit_known_signal_is_recorded n intent_id tenant_context values consumer self sd :
  get n (Spec.consulted self) = Some sd →
  (signal_registry.signal_type sd = "metric" →
   get_emissions (snd (emit_metric n intent_id tenant_context values self))
   = get_emissions self ++ [fst (emit_metric n intent_id tenant_context values self)])
  ∧ (signal_registry.signal_type sd = "outcome" →
     get_emissions (snd (emit_outcome n intent_id tenant_context values self))
     = get_emissions self ++ [fst (emit_outcome n intent_id tenant_context values self)])
  ∧ (signal_registry.signal_type sd = "advisor" →
     get_emissions (snd (emit_advisor n intent_id tenant_context values consumer self))
     = get_emissions self
         ++ [fst (emit_advisor n intent_id tenant_context values consumer self)]).
Proof.
  intros Hget. split_and!; intros Hty;
    apply emit_signal_known; by eapply unknown_as_false.
Qed.

Lemma emit_known_signal_is_recorded_witness :
  length (get_emissions
            (snd (emit_metric "ProfileDuration" "intent-1" [] []
                    Samples.profiler_emitter))) = 1.
Proof.
  destruct (emit_known_signal_is_recorded "ProfileDuration" "intent-1" [] [] "scheduler"
              Samples.profiler_emitter
              (Samples.signal_def "ProfileDuration" "metric" "always" ["DataProfiler"] [])
              eq_refl) as (Hm & _ & _).
  rewrite (Hm eq_refl). reflexivity.
Defined.

Lemma emit_signal_sink kind call n intent_id values self :
  Spec.unknown_as kind n self = false →
  let result := fst (emit_signal kind call n intent_id values self) in
  let self' := snd (emit_signal kind call n intent_id values self) in
  let now := fst (utc_now (snd (uuid4 (runtime self)))) in
  let c :=
    call (PyDict.update [("intent_id", VStr intent_id); ("domain", VStr DOMAIN)] values)
      now in
  timestamp result = now
  ∧ match _spine self with
    | Some spine =>
        sink_calls self' = spine_calls spine ++ [c]
        ∧ success result = Spec.succeeded (spine_behaviour spine (spine_calls spine) c)
        ∧ error result
          = match spine_behaviour spine (spine_calls spine) c with
            | Raises e => Some (exc_str e)
            | Returns _ => None
            end
    | None => success result = true ∧ error result = None ∧ _spine self' = None
    end.
Proof.
  unfold Spec.unknown_as, Spec.consulted, emit_signal, sink_calls.
  rewrite get_signal_spec. intros Hknown. simpl.
  destruct (get n (get_registry (_signal_registry self)).1) as [sd|];
    simpl in *; [|done].
  rewrite Hknown. simpl.
  destruct (_spine self) as [spine|]; simpl; [|done].
  by destruct (spine_behaviour spine (spine_calls spine) _).
Qed.

(** X11: for an advisor signal the registry holds, [emit_advisor] makes
    exactly one call on the sink, passing the intended consumer and the
    timestamp the result carries, and the result mirrors the sink: its
    [success] is the sink's answer, and an exception of the sink becomes a
    failed result whose [error] is the exception's text.  Without a sink the
    result is a success. *)
Theorem emit_advisor_mirrors_sink n intent_id tenant_context values consumer self sd :
  get n (Spec.consulted self) = Some sd →
  signal_registry.signal_type sd = "advisor" →
  let result := fst (emit_advisor n intent_id tenant_context values consumer self) in
  let self' := snd (emit_advisor n intent_id tenant_context values consumer self) in
  match _spine self with
  | Some spine =>
      ∃ payload,
        let c := spine_emit_advisor n payload tenant_context consumer (timestamp result) in
        sink_calls self' = spine_calls spine ++ [c]
        ∧ success result = Spec.succeeded (spine_behaviour spine (spine_calls spine) c)
        ∧ error result
          = match spine_behaviour spine (spine_calls spine) c with
            | Raises e => Some (exc_str e)
            | Returns _ => None
            end
  | None => success result = true ∧ error result = None ∧ sink_calls self' = []
  end.
Proof.
  intros Hget Hty result self'. subst result self'. unfold emit_advisor.
  destruct (emit_signal_sink "advisor"
              (fun payload now =>
                 spine_emit_advisor n payload tenant_context consumer now)
              n intent_id values self (unknown_as_false _ _ _ _ Hget Hty))
    as [Hnow Hsink].
  destruct (_spine self) as [spine|].
  - eexists. rewrite Hnow. exact Hsink.
  - destruct Hsink as (-> & -> & Hs). unfold sink_calls. by rewrite Hs.
Qed.

Lemma emit_advisor_mirrors_sink_witness :
  let refusing :=
    {| spine_behaviour := fun _ _ =>
         Raises {| exc_class := "ConnectionError"; exc_str := "spine unreachable" |};
       spine_calls := [] |} in
  let self :=
    FeedbackSignalEmitter_new (Some refusing)
      (FeedbackSignalRegistry_new (Some Samples.feedback_signals_dir))
      Spec.sample_runtime in
  error (fst (emit_advisor "ProfileFailed" "intent-1" [] [] "scheduler" self))
  = Some "spine unreachable".
Proof.
  intros refusing self.
  destruct (emit_advisor_mirrors_sink "ProfileFailed" "intent-1" [] [] "scheduler" self
              (Samples.signal_def "ProfileFailed" "advisor" "on_failure" ["DataProfiler"]
                 [[("consumer", "scheduler")]]) eq_refl eq_refl)
    as (payload & _ & _ & Herr).
  exact Herr.
Defined.

Lemma get_update {V} (base extra : dict V) k :
  PyDict.wf extra →
  PyDict.get k (PyDict.update base extra)
  = match PyDict.get k extra with
    | Some v => Some v
    | None => PyDict.get k base
    end.
Proof.
  unfold PyDict.update, PyDict.wf. revert base.
  induction extra as [|[k1 v1] extra IH]; intros base Hwf; simpl; [done|].
  apply NoDup_cons in Hwf as [Hk1 Hwf]. rewrite (IH _ Hwf). simpl in Hk1.
  destruct (String.eqb_spec k k1) as [->|Hne].
  - apply get_None_keys in Hk1. rewrite Hk1. apply get_set_eq.
  - destruct (PyDict.get k extra); [done|]. by apply get_set_ne.
Qed.

(** X12: the payload [emit_metric] hands to the sink holds the caller's
    values, and [intent_id] and [domain] unless the caller's values carry
    these keys themselves: the caller's entry wins. *)
Theorem emit_metric_payload n intent_id tenant_context values self sd spine :
  get n (Spec.consulted self) = Some sd →
  signal_registry.signal_type sd = "metric" →
  _spine self = Some spine →
  PyDict.wf values →
  ∃ payload now,
    sink_calls (snd (emit_metric n intent_id tenant_context values self))
    = spine_calls spine ++ [spine_emit_metric n payload tenant_context now]
    ∧ ∀ k, PyDict.get k payload
           = match PyDict.get k values with
             | Some v => Some v
             | None =>
                 if String.eqb k "intent_id" then Some (VStr intent_id)
                 else if String.eqb k "domain" then Some (VStr "data-fabric")
                 else None
             end.
Proof.
  intros Hget Hty Hspine Hwf. unfold emit_metric.
  destruct (emit_signal_sink "metric"
              (fun payload now => spine_emit_metric n payload tenant_context now)
              n intent_id values self (unknown_as_false _ _ _ _ Hget Hty))
    as [_ Hsink].
  rewrite Hspine in Hsink. destruct Hsink as (Hcalls & _ & _).
  do 2 eexists. split; [exact Hcalls|].
  intros k. by rewrite get_update.
Qed.

Lemma emit_metric_payload_witness :
  ∃ payload now,
    sink_calls (snd (emit_metric "ProfileDuration" "intent-1" []
                       [("seconds", VInt 12); ("domain", VStr "override")]
                       Samples.profiler_emitter))
    = [spine_emit_metric "ProfileDuration" payload [] now]
    ∧ PyDict.get "domain" payload = Some (VStr "override")
    ∧ PyDict.get "intent_id" payload = Some (VStr "intent-1").
Proof.
  destruct (emit_metric_payload "ProfileDuration" "intent-1" []
              [("seconds", VInt 12); ("domain", VStr "override")]
              Samples.profiler_emitter
              (Samples.signal_def "ProfileDuration" "metric" "always" ["DataProfiler"] [])
              Spec.accepting_spine eq_refl eq_refl eq_refl)
    as (payload & now & Hcalls & Hpayload).
  - unfold PyDict.wf. simpl. apply (bool_decide_unpack _). vm_compute. exact I.
  - exists payload, now. split_and!; [exact Hcalls | |]; rewrite Hpayload; reflexivity.
Defined.

Lemma filter_split_length {A} (p : A → bool) (l : list A) :
  (length (List.filter p l) + length (List.filter (fun x => negb (p x)) l))%nat
  = length l.
Proof.
  induction l as [|a l IH]; simpl; [done|]. destruct (p a); simpl; lia.
Qed.

(** X13: in the counts [get_emission_count] returns, [total] is the length
    of the audit log and the sum of [successful] and [failed]; after
    [clear_emissions] the log is empty and [total] is 0, while the sink and
    the registry are those of before. *)
Theorem get_emission_count_partition self :
  let counts := get_emission_count self in
  Cover.count "total" counts = Z.of_nat (length (get_emissions self))
  ∧ (Cover.count "total" counts
     = Cover.count "successful" counts + Cover.count "failed" counts)%Z
  ∧ get_emissions (clear_emissions self) = []
  ∧ Cover.count "total" (get_emission_count (clear_emissions self)) = 0%Z
  ∧ _spine (clear_emissions self) = _spine self
  ∧ _signal_registry (clear_emissions self) = _signal_registry self.
Proof.
  unfold get_emission_count, Cover.count, count_if, get_emissions. simpl.
  split_and!; try done.
  pose proof (filter_split_length success (_emissions self)). lia.
Qed.

Lemma category_split_length (l : list EmissionResult) :
  Forall (fun e => Spec.is_category (signal_emitter.signal_type e)) l →
  (length (List.filter (fun e => String.eqb (signal_emitter.signal_type e) "metric") l)
   + length (List.filter (fun e => String.eqb (signal_emitter.signal_type e) "outcome") l)
   + length (List.filter (fun e => String.eqb (signal_emitter.signal_type e) "advisor") l))%nat
  = length l.
Proof.
  induction 1 as [|e l Hcat Hall IH]; simpl; [done|].
  destruct Hcat as [Hty|[Hty|Hty]]; rewrite Hty; simpl; lia.
Qed.

Lemma emit_signal_log kind call n intent_id values self :
  _emissions (snd (emit_signal kind call n intent_id values self)) = _emissions self
  ∨ ∃ result, signal_emitter.signal_type result = kind
              ∧ _emissions (snd (emit_signal kind call n intent_id values self))
                = _emissions self ++ [result].
Proof.
  destruct (Spec.unknown_as kind n self) eqn:E.
  - left. by apply emit_signal_unknown.
  - right. eexists. split; [|by apply emit_signal_known].
    apply emit_signal_tags.
Qed.

(** What every step of the loop of [emit_for_execution_unit] keeps, the
    loop keeps. *)
Lemma emit_each_invariant (P : FeedbackSignalEmitter → Prop)
    signals intent_id tenant_context execution_result success :
  (∀ kind call n self, Spec.is_category kind → P self →
     P (snd (emit_signal kind call n intent_id execution_result self))) →
  ∀ results self, P self →
    P (snd (emit_each signals intent_id tenant_context execution_result success
              results self)).
Proof.
  intros Hstep. induction signals as [|sd signals IH]; intros results self HP; [done|].
  simpl.
  destruct (py_eq_str (condition_of sd) "on_success" && negb success); [by apply IH|].
  destruct (py_eq_str (condition_of sd) "on_failure" && success); [by apply IH|].
  destruct (String.eqb (signal_registry.signal_type sd) "metric").
  { destruct (emit_metric _ _ _ _ _) as [r s1] eqn:E. apply IH.
    change s1 with (snd (r, s1)). rewrite <- E. apply Hstep; [by left | done]. }
  destruct (String.eqb (signal_registry.signal_type sd) "outcome").
  { destruct (emit_outcome _ _ _ _ _) as [r s1] eqn:E. apply IH.
    change s1 with (snd (r, s1)). rewrite <- E. apply Hstep; [by right; left | done]. }
  destruct (String.eqb (signal_registry.signal_type sd) "advisor"); [|by apply IH].
  destruct (first_consumer (intended_consumers sd)) as [consumer|e]; [|done].
  destruct (emit_advisor _ _ _ _ _ _) as [r s1] eqn:E. apply IH.
  change s1 with (snd (r, s1)). rewrite <- E. apply Hstep; [by right; right | done].
Qed.

Lemma emit_signal_log_typed kind call n intent_id values self :
  Spec.is_category kind → Cover.log_typed self →
  Cover.log_typed (snd (emit_signal kind call n intent_id values self)).
Proof.
  intros Hkind Hlog. unfold Cover.log_typed in *.
  destruct (emit_signal_log kind call n intent_id values self)
    as [->|(result & Hty & ->)]; [done|].
  apply Forall_app. split; [done|]. apply Forall_singleton. by rewrite Hty.
Qed.

(** X14: every entry of the audit log carries the type tag metric, outcome
    or advisor: the three typed operations and [emit_for_execution_unit]
    keep it so, and therefore the counts [metrics], [outcomes] and
    [advisors] of [get_emission_count] add up to [total]. *)
Theorem audit_log_is_typed
    n intent_id tenant_context values consumer execution_unit_name success self :
  Cover.log_typed self →
  Cover.log_typed (snd (emit_metric n intent_id tenant_context values self))
  ∧ Cover.log_typed (snd (emit_outcome n intent_id tenant_context values self))
  ∧ Cover.log_typed (snd (emit_advisor n intent_id tenant_context values consumer self))
  ∧ Cover.log_typed
      (snd (emit_for_execution_unit execution_unit_name intent_id tenant_context
              values success self))
  ∧ (let counts := get_emission_count self in
     Cover.count "total" counts
     = Cover.count "metrics" counts + Cover.count "outcomes" counts
       + Cover.count "advisors" counts)%Z.
Proof.
  intros Hlog. split_and!.
  - apply emit_signal_log_typed; [by left | done].
  - apply emit_signal_log_typed; [by right; left | done].
  - apply emit_signal_log_typed; [by right; right | done].
  - unfold emit_for_execution_unit.
    destruct (get_signals_for_execution_unit _ _) as [[signals|e] registry]; [|done].
    apply emit_each_invariant; [|done].
    intros kind call m s Hkind Hs. by apply emit_signal_log_typed.
  - unfold get_emission_count, Cover.count, count_if. simpl.
    pose proof (category_split_length _ Hlog). lia.
Qed.

Lemma audit_log_is_typed_witness :
  Cover.log_typed
    (snd (emit_for_execution_unit "DataProfiler" "intent-1" [] [] true
            Samples.profiler_emitter)).
Proof.
  apply (audit_log_is_typed "ProfileDuration" "intent-1" [] [] "scheduler" "DataProfiler"
           true Samples.profiler_emitter).
  apply Forall_nil_2.
Defined.

(** X15: the audit log is append-only: each of the three typed operations
    adds at most one entry after those already recorded, and
    [emit_for_execution_unit] only adds entries after them; none rewrites or
    removes an entry. *)
Theorem audit_log_is_append_only
    n intent_id tenant_context values consumer execution_unit_name success self :
  let grows self' :=
    get_emissions self `prefix_of` get_emissions self' in
  let by_one self' :=
    (length (get_emissions self') ≤ S (length (get_emissions self)))%nat in
  (grows (snd (emit_metric n intent_id tenant_context values self))
   ∧ by_one (snd (emit_metric n intent_id tenant_context values self)))
  ∧ (grows (snd (emit_outcome n intent_id tenant_context values self))
     ∧ by_one (snd (emit_outcome n intent_id tenant_context values self)))
  ∧ (grows (snd (emit_advisor n intent_id tenant_context values consumer self))
     ∧ by_one (snd (emit_advisor n intent_id tenant_context values consumer self)))
  ∧ grows (snd (emit_for_execution_unit execution_unit_name intent_id tenant_context
                  values success self)).
Proof.
  intros grows by_one. subst grows by_one. unfold get_emissions.
  assert (Hone : ∀ kind call m s,
            _emissions s `prefix_of` _emissions (snd (emit_signal kind call m intent_id values s))
            ∧ (length (_emissions (snd (emit_signal kind call m intent_id values s)))
               ≤ S (length (_emissions s)))%nat).
  { intros kind call m s.
    destruct (emit_signal_log kind call m intent_id values s)
      as [->|(result & _ & ->)].
    - split; [done | lia].
    - split; [by apply prefix_app_r | rewrite length_app; simpl; lia]. }
  split_and!; try apply Hone.
  unfold emit_for_execution_unit.
  destruct (get_signals_for_execution_unit _ _) as [[signals|e] registry]; [|done].
  apply (emit_each_invariant (fun s => _emissions self `prefix_of` _emissions s));
    [|done].
  intros kind call m s _ Hs. etransitivity; [exact Hs | apply Hone].
Qed.

(** The loop over a concatenation is the loop over the first part followed,
    unless that raised, by the loop over the second. *)
Lemma emit_each_app signals1 signals2 intent_id tenant_context execution_result success :
  ∀ results self,
    emit_each (signals1 ++ signals2) intent_id tenant_context execution_result success
      results self
    = match emit_each signals1 intent_id tenant_context execution_result success
              results self with
      | (Returns results', self') =>
          emit_each signals2 intent_id tenant_context execution_result success
            results' self'
      | (Raises e, self') => (Raises e, self')
      end.
Proof.
  induction signals1 as [|sd signals1 IH]; intros results self; [done|].
  simpl.
  destruct (py_eq_str (condition_of sd) "on_success" && negb success); [apply IH|].
  destruct (py_eq_str (condition_of sd) "on_failure" && success); [apply IH|].
  destruct (String.eqb (signal_registry.signal_type sd) "metric").
  { destruct (emit_metric _ _ _ _ _) as [r s1]. apply IH. }
  destruct (String.eqb (signal_registry.signal_type sd) "outcome").
  { destruct (emit_outcome _ _ _ _ _) as [r s1]. apply IH. }
  destruct (String.eqb (signal_registry.signal_type sd) "advisor"); [|apply IH].
  destruct (first_consumer (intended_consumers sd)) as [consumer|e]; [|done].
  destruct (emit_advisor _ _ _ _ _ _) as [r s1]. apply IH.
Qed.

(** X16: one advisor signal whose first intended consumer has no
    [consumer] key aborts the whole batch: when such a signal is triggered,
    [emit_for_execution_unit] raises [KeyError] instead of returning
    results, also for the signals it had already emitted. *)
Theorem emit_for_execution_unit_aborts_on_unnamed_consumer
    execution_unit_name intent_id tenant_context execution_result success self
    before bad after :
  Spec.reachable (_registry (_signal_registry self)) →
  fst (get_signals_for_execution_unit execution_unit_name (_signal_registry self))
    = Returns (before ++ bad :: after) →
  (∀ sd, sd ∈ before → signal_registry.signal_type sd = "advisor" →
         Spec.consumer_named sd) →
  Cover.unnamed_consumer bad →
  Spec.triggered success bad = true →
  fst (emit_for_execution_unit execution_unit_name intent_id tenant_context
         execution_result success self)
  = Raises {| exc_class := "KeyError"; exc_str := "'consumer'" |}.
Proof.
  intros Hreach Hsignals Hcons (Hty & c & rest & Hc & Hnone) Htrig.
  pose proof (reachable_bucketed _ (get_registry_reachable _ Hreach)) as Hb.
  unfold emit_for_execution_unit.
  unfold get_signals_for_execution_unit in Hsignals |- *.
  destruct (get_registry (_signal_registry self)) as [registry fsr].
  simpl in Hsignals, Hb. rewrite Hsignals.
  apply matching_signals_selection in Hsignals. simpl in Hsignals.
  assert (Hcat : ∀ sd, sd ∈ before → Spec.is_category (signal_registry.signal_type sd)).
  { intros sd Hin. apply (get_all_category registry); [done|].
    assert (Hin' : sd ∈ before ++ bad :: after) by (apply elem_of_app; by left).
    rewrite Hsignals in Hin'.
    apply list_elem_of_In, List.filter_In in Hin' as [Hin' _].
    by apply list_elem_of_In. }
  rewrite emit_each_app.
  destruct (emit_each_results before intent_id tenant_context execution_result success
              Hcat Hcons []
              {| _spine := _spine self; _signal_registry := fsr;
                 _emissions := _emissions self; runtime := runtime self |})
    as (results & self' & -> & _).
  simpl. unfold Spec.triggered in Htrig.
  apply andb_prop in Htrig as [->%negb_true_iff ->%negb_true_iff].
  rewrite Hty. simpl. unfold first_consumer. by rewrite Hc, Hnone.
Qed.

Lemma emit_for_execution_unit_aborts_on_unnamed_consumer_witness :
  let bad :=
    Samples.signal_def "RetryAdvice" "advisor" "always" ["DataProfiler"]
      [[("team", "scheduler")]] in
  let registry :=
    {| feedback_signals := None;
       _registry :=
         add bad (add (Samples.signal_def "ProfileDuration" "metric" "always"
                         ["DataProfiler"] []) SignalRegistry_new);
       _loaded := true; signal_registry.stdout := [] |} in
  let self := FeedbackSignalEmitter_new (Some Spec.accepting_spine) registry
                Spec.sample_runtime in
  fst (emit_for_execution_unit "DataProfiler" "intent-1" [] [] true self)
  = Raises {| exc_class := "KeyError"; exc_str := "'consumer'" |}.
Proof.
  intros bad registry self.
  apply (emit_for_execution_unit_aborts_on_unnamed_consumer "DataProfiler" "intent-1"
           [] [] true self
           [Samples.signal_def "ProfileDuration" "metric" "always" ["DataProfiler"] []]
           bad []).
  - do 2 apply Spec.reachable_add. apply Spec.reachable_new.
  - reflexivity.
  - intros sd ->%list_elem_of_singleton Hty. discriminate Hty.
  - split; [reflexivity|]. by exists [("team", "scheduler")], [].
  - reflexivity.
Defined.

End EmitterCoverage.

(** ** Capability registry loader: discovery, registration, teardown calls *)

Section RegistryLoaderCoverage.
Import registry_loader.
Implicit Types (self : RegistryCardLoader).


(** [discover_cards] neither registers anything nor contacts the asset
    registry. *)
Lemma discover_cards_frame self :
  _registered_cards (snd (discover_cards self)) = _registered_cards self
  ∧ _registry_client (snd (discover_cards self)) = _registry_client self.
Proof.
  unfold discover_cards. destruct (registry_cards self) as [files|]; simpl; [|done].
  by destruct (discover_files files [] (stdout self)).
Qed.



Lemma load_each_lookup n table cards :
  ∀ results self,
    PyDict.get n (_registered_cards self)
    = match PyDict.get n results with Some id => Some id | None => PyDict.get n table end →
    PyDict.get n (_registered_cards (snd (load_each cards results self)))
    = match PyDict.get n (fst (load_each cards results self)) with
      | Some id => Some id
      | None => PyDict.get n table
      end.
Proof.
  induction cards as [|card cards IH]; intros results self Hinv; [done|].
  simpl. destruct (register_capability _ _ _) as [card_id|e]; apply IH; simpl; [|done].
  destruct (decide (name card = n)) as [<-|Hne].
  - by rewrite !get_set_eq.
  - by rewrite !get_set_ne.
Qed.

(** X18: [load_all] records in the table of registered cards exactly what
    it returns: a name of the result maps to the same id in the table, and
    every other name of the table is as it was before the call. *)
Theorem load_all_records_what_it_returns self n :
  PyDict.get n (get_registered_cards (snd (load_all self)))
  = match PyDict.get n (fst (load_all self)) with
    | Some card_id => Some card_id
    | None => PyDict.get n (get_registered_cards self)
    end.
Proof.
  unfold load_all, get_registered_cards.
  pose proof (discover_cards_frame self) as [Htable _].
  destruct (discover_cards self) as [cards self']. simpl in Htable.
  rewrite <- Htable. by apply load_each_lookup.
Qed.

Lemma load_each_calls cards :
  ∀ results self,
    ∃ new,
      registry_calls (_registry_client (snd (load_each cards results self)))
      = registry_calls (_registry_client self) ++ new
      ∧ map Cover.registered_as new
        = map (fun card => Some (name card, capability_type card)) cards.
Proof.
  induction cards as [|card cards IH]; intros results self.
  - exists []. by rewrite app_nil_r.
  - simpl. destruct (register_capability _ _ _) as [card_id|e].
    + match goal with
      | |- context [load_each cards ?r ?s] => destruct (IH r s) as (new & -> & Hnew)
      end.
      simpl. eexists (_ :: new). rewrite <- app_assoc. split; [done|].
      simpl. by rewrite Hnew.
    + match goal with
      | |- context [load_each cards ?r ?s] => destruct (IH r s) as (new & -> & Hnew)
      end.
      simpl. eexists (_ :: new). rewrite <- app_assoc. split; [done|].
      simpl. by rewrite Hnew.
Qed.

(** X19: [load_all] asks the asset registry to register every discovered
    card, once each and in the order of discovery, under the card's name and
    capability type, whether earlier registrations returned or raised; it
    makes no other call. *)
Theorem load_all_registers_every_card self :
  ∃ new,
    registry_calls (_registry_client (snd (load_all self)))
    = registry_calls (_registry_client self) ++ new
    ∧ map Cover.registered_as new
      = map (fun card => Some (name card, capability_type card))
          (fst (discover_cards self)).
Proof.
  unfold load_all.
  pose proof (discover_cards_frame self) as [_ Hclient].
  destruct (discover_cards self) as [cards self']. simpl in *.
  rewrite <- Hclient. apply load_each_calls.
Qed.

Lemma load_each_register cards results self :
  register_capability (_registry_client (snd (load_each cards results self)))
  = register_capability (_registry_client self).
Proof.
  revert results self. induction cards as [|card cards IH]; intros results self; [done|].
  simpl. destruct (register_capability _ _ _); by rewrite IH.
Qed.

Lemma load_each_result_from cards n card_id :
  ∀ results self,
    PyDict.get n (fst (load_each cards results self)) = Some card_id →
    is_Some (PyDict.get n results) ∨ ∃ card, card ∈ cards ∧ name card = n.
Proof.
  induction cards as [|card cards IH]; intros results self; simpl; [by eauto|].
  destruct (register_capability _ _ _) as [id|e]; intros Hget.
  - destruct (IH _ _ Hget) as [Hsome|(c & Hc & Hn)].
    + destruct (decide (name card = n)) as [Heq|Hne].
      * right. exists card. split; [by apply elem_of_cons; left | done].
      * left. by rewrite get_set_ne in Hsome.
    + right. exists c. split; [by apply elem_of_cons; right | done].
  - destruct (IH _ _ Hget) as [Hsome|(c & Hc & Hn)]; [by left|].
    right. exists c. split; [by apply elem_of_cons; right | done].
Qed.

Lemma load_each_keeps_results cards n :
  ∀ results self,
    is_Some (PyDict.get n results) →
    is_Some (PyDict.get n (fst (load_each cards results self))).
Proof.
  induction cards as [|card cards IH]; intros results self Hsome; [done|].
  simpl. destruct (register_capability _ _ _) as [id|e]; apply IH; [|done].
  destruct (decide (name card = n)) as [<-|Hne].
  - rewrite get_set_eq. eauto.
  - by rewrite get_set_ne.
Qed.

Lemma load_each_all_registered cards :
  ∀ results self,
    (∀ calls args, ∃ card_id,
        register_capability (_registry_client self) calls args = Returns card_id) →
    ∀ card, card ∈ cards →
      is_Some (PyDict.get (name card) (fst (load_each cards results self))).
Proof.
  induction cards as [|c cards IH]; intros results self Hall card Hin.
  - by apply elem_of_nil in Hin.
  - simpl.
    destruct (Hall (registry_calls (_registry_client self))
                {| arg_name := name c; arg_version := version c; arg_domain := domain c;
                   arg_capability_type := capability_type c;
                   arg_tags := capability_tags c; arg_description := description c;
                   arg_input_contract := input_contract c;
                   arg_output_contract := output_contract c;
                   arg_consumer_intents := consumer_intents c;
                   arg_metadata_failure_modes := failure_modes c;
                   arg_metadata_adr_reference := adr_reference c;
                   arg_metadata_registered_at :=
                     time_stream (runtime self) (time_reads (runtime self)) |})
      as [card_id Hreg].
    rewrite Hreg.
    apply elem_of_cons in Hin as [->|Hin].
    + apply load_each_keeps_results. rewrite get_set_eq. eauto.
    + apply IH; [|done]. simpl. exact Hall.
Qed.

(** X20: the result of [load_all] names discovered cards only, and when the
    asset registry answers every registration, every discovered card is in
    the result under its name. *)
Theorem load_all_result_names_cards self :
  (∀ n card_id, PyDict.get n (fst (load_all self)) = Some card_id →
     ∃ card, card ∈ fst (discover_cards self) ∧ name card = n)
  ∧ ((∀ calls args, ∃ card_id,
         register_capability (_registry_client self) calls args = Returns card_id) →
     ∀ card, card ∈ fst (discover_cards self) →
       is_Some (PyDict.get (name card) (fst (load_all self)))).
Proof.
  unfold load_all.
  pose proof (discover_cards_frame self) as [_ Hclient].
  destruct (discover_cards self) as [cards self']. simpl in *. split.
  - intros n card_id Hget.
    destruct (load_each_result_from _ _ _ _ _ Hget) as [[? Hnil]|?]; [done | done].
  - intros Hall. apply load_each_all_registered. by rewrite Hclient.
Qed.

Lemma load_all_result_names_cards_witness :
  PyDict.keys (fst (load_all (Samples.card_loader (Returns true))))
  = ["DataWriter"; "DataProfiler"]
  ∧ is_Some (PyDict.get "DataProfiler"
               (fst (load_all (Samples.card_loader (Returns true))))).
Proof.
  split; [reflexivity|].
  refine (proj2 (load_all_result_names_cards (Samples.card_loader (Returns true))) _
            {| name := "DataProfiler"; version := "1.0.0"; domain := "data-fabric";
               capability_type := ""; capability_tags := ["stateless"];
               description := ""; input_contract := [("type", VStr "object")];
               output_contract := [("type", VStr "object")]; consumer_intents := [];
               failure_modes := []; adr_reference := "ADR-001" |} _).
  - intros calls args. eexists. reflexivity.
  - apply elem_of_cons; right. apply elem_of_cons; left. reflexivity.
Defined.

Lemma unload_each_calls snapshot :
  ∀ results self,
    registry_calls (_registry_client (snd (unload_each snapshot results self)))
    = registry_calls (_registry_client self)
        ++ map call_unregister (PyDict.values snapshot).
Proof.
  induction snapshot as [|[card_name card_id] snapshot IH]; intros results self.
  - simpl. by rewrite app_nil_r.
  - simpl. destruct (unregister_capability _ _ _) as [[|]|e]; simpl.
    + destruct (PyDict.del card_name (_registered_cards self));
        rewrite IH; simpl; by rewrite <- app_assoc.
    + rewrite IH. simpl. by rewrite <- app_assoc.
    + rewrite IH. simpl. by rewrite <- app_assoc.
Qed.

(** X21: [unload_all] asks the asset registry to unregister every card of
    the table, once each and in the order in which the cards were first
    registered, under the id they were registered with, whatever the
    earlier calls answered; it makes no other call. *)
Theorem unload_all_unregisters_every_card self :
  registry_calls (_registry_client (snd (unload_all self)))
  = registry_calls (_registry_client self)
      ++ map call_unregister (PyDict.values (get_registered_cards self)).
Proof. apply unload_each_calls. Qed.

End RegistryLoaderCoverage.

(** ** Intent handler: support, decomposition, submission *)

Section IntentHandlerCoverage.
Import intent_handler.
Implicit Types (self : DataFabricIntentHandler).

(** X22: an intent type is supported exactly when the static table maps it
    to units, and exactly when [get_supported_intents] lists it; that list
    has no repetition and [get_intent_count] is its length. *)
Theorem is_supported_intent_iff_mapped intent_type :
  (is_supported_intent intent_type = true
   ↔ is_Some (get_execution_units_for_intent intent_type))
  ∧ (intent_type ∈ get_supported_intents ↔ is_supported_intent intent_type = true)
  ∧ NoDup get_supported_intents
  ∧ get_intent_count = length get_supported_intents.
Proof.
  split_and!.
  - apply is_supported_intent_spec.
  - unfold get_supported_intents, is_supported_intent.
    by rewrite elem_of_elements, bool_decide_eq_true.
  - apply NoDup_elements.
  - reflexivity.
Qed.

Lemma unit_names_of_specs units :
  map (fun spec => match spec with
                   | VDict d => PyDict.get "name" d
                   | _ => None
                   end) (map VDict (map eu_spec units))
  = map (fun eu => Some (VStr (name eu))) units.
Proof. induction units as [|eu units IH]; simpl; [done|]. by rewrite IH. Qed.

(** X23: for every intent type of the static table, with no submission
    collaborator or with one whose call returns, [handle_intent] reports
    success, echoes the intent id and type, and lists the mapped units by
    name in the order of the table, as many as [unit_count] says; the units
    it returns are the ones it submitted. *)
Theorem handle_intent_decomposes intent_id intent_type params self units :
  get_execution_units_for_intent intent_type = Some units →
  (∀ engine, _intent_engine self = Some engine →
     ∃ accepted,
       decompose_intent engine (engine_calls engine) (Spec.submission intent_id units)
       = Returns accepted) →
  let result := fst (handle_intent intent_id intent_type params self) in
  PyDict.get "success" result = Some (VBool true)
  ∧ PyDict.get "error" result = None
  ∧ PyDict.get "intent_id" result = Some (VStr intent_id)
  ∧ PyDict.get "intent_type" result = Some (VStr intent_type)
  ∧ Spec.unit_names result = Some (map (fun eu => Some (VStr (name eu))) units)
  ∧ PyDict.get "unit_count" result = Some (VInt (Z.of_nat (length units)))
  ∧ PyDict.get "execution_units" result
    = Some (VList (map VDict (call_execution_units (Spec.submission intent_id units)))).
Proof.
  intros Hget Hok result. subst result. unfold handle_intent.
  assert (Hsup : is_supported_intent intent_type = true)
    by (apply is_supported_intent_spec; unfold get_execution_units_for_intent in Hget;
        rewrite Hget; eauto).
  rewrite Hsup, Hget. cbn [negb].
  pose proof (mapped_units_nonempty _ _ Hget) as Hne.
  destruct units as [|u units]; [done|].
  assert (Hresult : ∀ r : dict PyVal,
            r = [("success", VBool true); ("intent_id", VStr intent_id);
                 ("intent_type", VStr intent_type); ("domain", VStr DOMAIN);
                 ("execution_units", VList (map VDict (map eu_spec (u :: units))));
                 ("unit_count", VInt (Z.of_nat (length (map eu_spec (u :: units)))))] →
            PyDict.get "success" r = Some (VBool true)
            ∧ PyDict.get "error" r = None
            ∧ PyDict.get "intent_id" r = Some (VStr intent_id)
            ∧ PyDict.get "intent_type" r = Some (VStr intent_type)
            ∧ Spec.unit_names r = Some (map (fun eu => Some (VStr (name eu))) (u :: units))
            ∧ PyDict.get "unit_count" r = Some (VInt (Z.of_nat (length (u :: units))))
            ∧ PyDict.get "execution_units" r
              = Some (VList (map VDict
                               (call_execution_units
                                  (Spec.submission intent_id (u :: units)))))).
  { intros r ->. unfold Spec.unit_names.
    cbn [PyDict.get String.eqb Ascii.eqb Bool.eqb].
    rewrite unit_names_of_specs, length_map. done. }
  destruct (_intent_engine self) as [engine|] eqn:Hengine.
  - destruct (Hok engine eq_refl) as [accepted Hacc].
    unfold await_decompose. unfold Spec.submission in Hacc. cbn [fst snd].
    rewrite Hacc. by apply Hresult.
  - by apply Hresult.
Qed.

Lemma handle_intent_decomposes_witness :
  Spec.unit_names
    (fst (handle_intent "intent-2" "MergeDataBranches" [] {| _intent_engine := None |}))
  = Some [Some (VStr "MergeComputer"); Some (VStr "DataCommitter")].
Proof.
  pose proof (fun units Hunits =>
                handle_intent_decomposes "intent-2" "MergeDataBranches" []
                  {| _intent_engine := None |} units Hunits
                  (fun engine (H : None = Some engine) =>
                     match H in _ = o return
                           match o with Some _ => _ | None => True end
                     with eq_refl => I end)) as Hdec.
  specialize (Hdec _ eq_refl). simpl in Hdec.
  destruct Hdec as (_ & _ & _ & _ & Hnames & _). exact Hnames.
Defined.

(** X24: for every intent type of the static table, an exception of the
    submission collaborator is caught: [handle_intent] returns the failure
    dict whose [error] is "Failed to submit decomposition: " followed by the
    exception's text, without the decomposition, and the collaborator has
    received that one call. *)
Theorem handle_intent_reports_submission_error
    intent_id intent_type params engine units e :
  get_execution_units_for_intent intent_type = Some units →
  decompose_intent engine (engine_calls engine) (Spec.submission intent_id units)
    = Raises e →
  let result :=
    fst (handle_intent intent_id intent_type params {| _intent_engine := Some engine |}) in
  let self' :=
    snd (handle_intent intent_id intent_type params {| _intent_engine := Some engine |}) in
  result = [("success", VBool false);
            ("error", VStr ("Failed to submit decomposition: " +:+ exc_str e));
            ("domain", VStr "data-fabric")]
  ∧ PyDict.get "execution_units" result = None
  ∧ ∃ engine', _intent_engine self' = Some engine'
               ∧ engine_calls engine'
                 = engine_calls engine ++ [Spec.submission intent_id units].
Proof.
  intros Hget Hraise result self'.
  assert (Hres : result
                 = [("success", VBool false);
                    ("error", VStr ("Failed to submit decomposition: " +:+ exc_str e));
                    ("domain", VStr "data-fabric")])
    by (by apply handle_intent_submission_raises with (units := units)).
  split; [exact Hres|]. split; [by rewrite Hres|].
  subst self'. unfold handle_intent.
  assert (Hsup : is_supported_intent intent_type = true)
    by (apply is_supported_intent_spec; unfold get_execution_units_for_intent in Hget;
        rewrite Hget; eauto).
  rewrite Hsup, Hget. cbn [negb].
  pose proof (mapped_units_nonempty _ _ Hget) as Hne.
  destruct units as [|u units]; [done|].
  unfold await_decompose. unfold Spec.submission in Hraise |- *.
  cbn [_intent_engine fst snd]. rewrite Hraise. cbn [snd _intent_engine].
  eexists. split; reflexivity.
Qed.

Lemma handle_intent_reports_submission_error_witness :
  let engine :=
    {| decompose_intent := fun _ _ =>
         Raises {| exc_class := "TimeoutError"; exc_str := "intent engine timed out" |};
       engine_calls := [] |} in
  PyDict.get "error"
    (fst (handle_intent "intent-3" "ProfileData" [] {| _intent_engine := Some engine |}))
  = Some (VStr "Failed to submit decomposition: intent engine timed out").
Proof.
  intros engine.
  pose proof (fun units Hunits =>
                proj1 (handle_intent_reports_submission_error "intent-3" "ProfileData" []
                         engine units
                         {| exc_class := "TimeoutError";
                            exc_str := "intent engine timed out" |}
                         Hunits eq_refl)) as Herr.
  specialize (Herr _ eq_refl). rewrite Herr. reflexivity.
Defined.

(** X25: [handle_intent] contacts the submission collaborator exactly once
    for an intent type of the static table, with the intent id and the unit
    specs of the table, and not at all for any other intent type. *)
Theorem handle_intent_submits_once intent_id intent_type params engine :
  ∃ engine',
    _intent_engine
      (snd (handle_intent intent_id intent_type params {| _intent_engine := Some engine |}))
    = Some engine'
    ∧ decompose_intent engine' = decompose_intent engine
    ∧ engine_calls engine'
      = engine_calls engine
          ++ match get_execution_units_for_intent intent_type with
             | Some units => [Spec.submission intent_id units]
             | None => []
             end.
Proof.
  unfold handle_intent.
  destruct (get_execution_units_for_intent intent_type) as [units|] eqn:Hget.
  - assert (Hsup : is_supported_intent intent_type = true)
      by (apply is_supported_intent_spec; unfold get_execution_units_for_intent in Hget;
          rewrite Hget; eauto).
    rewrite Hsup. cbn [negb].
    pose proof (mapped_units_nonempty _ _ Hget) as Hne.
    destruct units as [|u units]; [done|].
    unfold await_decompose, Spec.submission. cbn [_intent_engine fst snd].
    destruct (decompose_intent engine (engine_calls engine) _);
      cbn [snd _intent_engine]; eexists; split_and!; reflexivity.
  - rewrite (is_supported_intent_false _ Hget). cbn [negb snd _intent_engine].
    exists engine. by rewrite app_nil_r.
Qed.

(** X26: the guard for an intent type mapped to no unit never fires: the
    result of [handle_intent] has no [error], or the error "Unsupported
    intent type: ..." or "Failed to submit decomposition: ..."; for no
    intent type, parameters and collaborator is it the error "No execution
    units mapped for intent: ...". *)
Theorem handle_intent_never_reports_no_units intent_id intent_type params self :
  let error := PyDict.get "error" (fst (handle_intent intent_id intent_type params self)) in
  (error = None
   ∨ error = Some (VStr ("Unsupported intent type: " +:+ intent_type))
   ∨ ∃ text, error = Some (VStr ("Failed to submit decomposition: " +:+ text)))
  ∧ error ≠ Some (VStr ("No execution units mapped for intent: " +:+ intent_type)).
Proof.
  unfold handle_intent.
  destruct (get_execution_units_for_intent intent_type) as [units|] eqn:Hget.
  - assert (Hsup : is_supported_intent intent_type = true)
      by (apply is_supported_intent_spec; unfold get_execution_units_for_intent in Hget;
          rewrite Hget; eauto).
    rewrite Hsup. cbn [negb].
    pose proof (mapped_units_nonempty _ _ Hget) as Hne.
    destruct units as [|u units]; [done|].
    destruct (_intent_engine self) as [engine|];
      [|simpl; split; [by left | discriminate]].
    unfold await_decompose. cbn [fst snd].
    destruct (decompose_intent engine (engine_calls engine) _) as [accepted|e]; simpl.
    + split; [by left | discriminate].
    + split; [right; right; by eexists | discriminate].
  - rewrite (is_supported_intent_false _ Hget). simpl.
    split; [right; by left | discriminate].
Qed.

Lemma get_pair_In {V} k (d : dict V) v : PyDict.get k d = Some v → In (k, v) d.
Proof.
  induction d as [|[k' v'] d IH]; simpl; [done|].
  destruct (String.eqb_spec k k') as [->|?].
  - intros [= ->]. by left.
  - intros Hget. right. by apply IH.
Qed.

(** X27: the two static tables agree: every execution unit an intent
    decomposes into has a capability profile under its name, with the same
    capability type, tagged stateless. *)
Theorem decomposed_units_have_profiles intent_type units eu :
  get_execution_units_for_intent intent_type = Some units →
  eu ∈ units →
  ∃ profile,
    capability_provider.get_capability_profile (name eu) = Some profile
    ∧ capability_provider.capability_type profile = capability_type eu
    ∧ "stateless" ∈ capability_provider.tags profile.
Proof.
  intros Hget Hin.
  pose (unit_ok := fun eu : ExecutionUnitRef =>
          match capability_provider.get_capability_profile (name eu) with
          | Some profile =>
              String.eqb (capability_provider.capability_type profile) (capability_type eu)
              && existsb (String.eqb "stateless") (capability_provider.tags profile)
          | None => false
          end).
  assert (Hall : forallb (fun entry => forallb unit_ok (snd entry))
                   INTENT_TO_EXECUTION_UNITS = true) by (vm_compute; reflexivity).
  rewrite forallb_forall in Hall.
  apply get_pair_In in Hget. specialize (Hall _ Hget). simpl in Hall.
  rewrite forallb_forall in Hall. apply list_elem_of_In in Hin.
  specialize (Hall _ Hin). unfold unit_ok in Hall.
  destruct (capability_provider.get_capability_profile (name eu)) as [profile|];
    [|done].
  apply andb_prop in Hall as [Hty%String.eqb_eq Htag].
  exists profile. split_and!; [done..|].
  apply existsb_exists in Htag as (t & Ht & <-%String.eqb_eq).
  by apply list_elem_of_In.
Qed.

Lemma decomposed_units_have_profiles_witness :
  ∃ profile,
    capability_provider.get_capability_profile "LineageEdgeWriter" = Some profile
    ∧ capability_provider.capability_type profile = "lineage-recording".
Proof.
  pose proof (fun units Hunits =>
                decomposed_units_have_profiles "TransformData" units
                  {| name := "LineageEdgeWriter"; capability_type := "lineage-recording";
                     input_mapping :=
                       [("source_asset_ref", "edge_input.source_asset_ref");
                        ("target_asset_ref", "edge_input.target_asset_ref")] |}
                  Hunits) as Hprof.
  specialize (Hprof _ eq_refl).
  destruct Hprof as (profile & Hp & Hty & _).
  - do 2 (apply elem_of_cons; right). apply elem_of_cons; left. reflexivity.
  - by exists profile.
Defined.

End IntentHandlerCoverage.

(** ** Capability provider with a scheduler *)

Section CapabilityProviderCoverage.
Import capability_provider.
Implicit Types (self : DataFabricCapabilityProvider).

Lemma provide_each_spec units :
  ∀ scheduler results provided out results' scheduler' provided' out',
    NoDup (PyDict.keys results ++ PyDict.keys units) →
    provide_each units scheduler results provided out
    = (results', scheduler', provided', out') →
    PyDict.keys results' = PyDict.keys results ++ PyDict.keys units
    ∧ (∀ n, n ∈ PyDict.keys results → PyDict.get n results' = PyDict.get n results)
    ∧ (∀ n, n ∈ provided'
            ↔ n ∈ provided ∨ (n ∈ PyDict.keys units ∧ PyDict.get n results' = Some true))
    ∧ scheduler_calls scheduler'
      = scheduler_calls scheduler ++ map Cover.provide_call units.
Proof.
  induction units as [|[name profile] units IH];
    intros scheduler results provided out results' scheduler' provided' out' Hnd.
  - simpl. intros Heq. simplify_eq. rewrite !app_nil_r. split_and!; try done.
    intros n. split; [by left | intros [?|[?%elem_of_nil _]]; done].
  - simpl in Hnd |- *.
    assert (Hfresh : name ∉ PyDict.keys results).
    { apply NoDup_app in Hnd as (_ & Hdisj & _).
      intros Hin. apply (Hdisj _ Hin). by apply elem_of_cons; left. }
    assert (Hkeys : ∀ b : bool, PyDict.keys (PyDict.set name b results)
                                = PyDict.keys results ++ [name]).
    { intros b. rewrite set_fresh by done. unfold PyDict.keys. by rewrite map_app. }
    assert (Hnd' : ∀ b : bool,
              NoDup (PyDict.keys (PyDict.set name b results) ++ PyDict.keys units)).
    { intros b. rewrite Hkeys, <- app_assoc. exact Hnd. }
    assert (Hstep : ∀ (b : bool) sched provided1 out1,
              (∀ n, n ∈ provided1 ↔ n ∈ provided ∨ (n = name ∧ b = true)) →
              provide_each units sched (PyDict.set name b results) provided1 out1
              = (results', scheduler', provided', out') →
              PyDict.keys results' = PyDict.keys results ++ name :: PyDict.keys units
              ∧ (∀ n, n ∈ PyDict.keys results →
                      PyDict.get n results' = PyDict.get n results)
              ∧ (∀ n, n ∈ provided'
                      ↔ n ∈ provided
                        ∨ (n ∈ name :: PyDict.keys units
                           ∧ PyDict.get n results' = Some true))
              ∧ scheduler_calls scheduler'
                = scheduler_calls sched ++ map Cover.provide_call units).
    { intros b sched provided1 out1 Hprov Hrun.
      destruct (IH _ _ _ _ _ _ _ _ (Hnd' b) Hrun) as (Hk & Hold & Hp & Hcalls).
      assert (Hname : PyDict.get name results' = Some b).
      { rewrite Hold; [apply get_set_eq|]. rewrite Hkeys. apply elem_of_app; right.
        by apply list_elem_of_singleton. }
      split_and!.
      - rewrite Hk, Hkeys, <- app_assoc. done.
      - intros n Hn. rewrite Hold.
        + apply get_set_ne. by intros ->.
        + rewrite Hkeys. apply elem_of_app; by left.
      - intros n. rewrite Hp, Hprov, elem_of_cons. split.
        + intros [[?|[-> ->]]|[? ?]]; auto.
        + intros [?|[[->|?] Hget]]; auto.
          left; right. split; [done|]. rewrite Hname in Hget. by injection Hget.
      - exact Hcalls. }
    assert (Hgrow : ∀ n, n ∈ provided ∪ {[name]} ↔ n ∈ provided ∨ (n = name ∧ true = true)).
    { intros n. rewrite elem_of_union, elem_of_singleton. tauto. }
    assert (Hsame : ∀ n, n ∈ provided ↔ n ∈ provided ∨ (n = name ∧ false = true)).
    { intros n. split; [by left | intros [?|[_ ?]]; done]. }
    destruct (provide_capability scheduler (scheduler_calls scheduler) _)
      as [[|]|e] eqn:Hcall; intros Hrun.
    + apply (Hstep true _ _ _ Hgrow) in Hrun as (Hk & Hold & Hp & Hcalls).
      split_and!; [done..|]. rewrite Hcalls. simpl. by rewrite <- app_assoc.
    + apply (Hstep false _ _ _ Hsame) in Hrun as (Hk & Hold & Hp & Hcalls).
      split_and!; [done..|]. rewrite Hcalls. simpl. by rewrite <- app_assoc.
    + apply (Hstep false _ _ _ Hsame) in Hrun as (Hk & Hold & Hp & Hcalls).
      split_and!; [done..|]. rewrite Hcalls. simpl. by rewrite <- app_assoc.
Qed.

(** X28: with an MCOP scheduler, [provide_all_capabilities] offers each of
    the execution units of the table to the scheduler, once and in table
    order, whatever the earlier calls answered; the result reports every
    unit, and the set of provided capabilities afterwards holds what it held
    before and the units reported [True]. *)
Theorem provide_all_capabilities_with_scheduler self scheduler :
  _mcop_scheduler self = Some scheduler →
  let results := fst (provide_all_capabilities self) in
  let self' := snd (provide_all_capabilities self) in
  PyDict.keys results = PyDict.keys EXECUTION_UNIT_CAPABILITIES
  ∧ (∀ n, n ∈ get_provided_capabilities self'
          ↔ n ∈ get_provided_capabilities self ∨ PyDict.get n results = Some true)
  ∧ ∃ scheduler',
      _mcop_scheduler self' = Some scheduler'
      ∧ scheduler_calls scheduler'
        = scheduler_calls scheduler
            ++ map Cover.provide_call EXECUTION_UNIT_CAPABILITIES.
Proof.
  intros Hsched results self'. subst results self'.
  unfold provide_all_capabilities, get_provided_capabilities, PyDict.items.
  rewrite Hsched.
  destruct (provide_each EXECUTION_UNIT_CAPABILITIES scheduler []
              (_provided_capabilities self) (stdout self))
    as [[[results scheduler'] provided] out] eqn:Hrun.
  apply provide_each_spec in Hrun as (Hk & _ & Hp & Hcalls).
  - change (PyDict.keys (@nil (string * bool)) ++ ?x) with x in Hk.
    cbn [fst snd _provided_capabilities _mcop_scheduler]. split_and!.
    + exact Hk.
    + intros n. rewrite Hp. split; [intros [?|[_ ?]]; auto|].
      intros [?|Hget]; [by left|]. right. split; [|done].
      rewrite <- Hk. apply get_Some_keys. rewrite Hget. eauto.
    + by exists scheduler'.
  - apply (bool_decide_unpack _). vm_compute. exact I.
Qed.

Lemma provide_all_capabilities_with_scheduler_witness :
  let picky :=
    {| provide_capability := fun _ c =>
         Returns (String.eqb (call_execution_unit_name c) "DataWriter");
       scheduler_calls := [] |} in
  let self := DataFabricCapabilityProvider_new (Some picky) in
  "DataWriter" ∈ get_provided_capabilities (snd (provide_all_capabilities self)).
Proof.
  intros picky self.
  apply (provide_all_capabilities_with_scheduler self picky eq_refl).
  right. vm_compute. reflexivity.
Defined.

End CapabilityProviderCoverage.
